(** * ArduinoAnalogJoy: the calibration and normalisation engine of [joy.py]

    A shallow embedding of [joy.py] (the dead-zone mapping [calc_f], the
    [Joy] link with its handshake, configuration loading and calibration,
    and the [JoyMouse] action translator) together with the properties of
    its specification.

    Numbers.  Python's [int] is [Z].  Python's [float] is idealised as an
    exact rational ([Q]): rounding, infinities and NaN are outside the
    model.  Exceptions are values of [exn]; a computation that may raise
    returns a [result]. *)

From Stdlib Require Import ZArith QArith Qround Lqa Lia Bool List String Ascii.
From Stdlib.Strings Require Import Byte.
From Stdlib Require Import DecimalString.
Import ListNotations.

Local Open Scope Z_scope.

(** ** Python values and exceptions *)

Inductive exn : Type :=
| RuntimeError (msg : string)
| FileNotFoundError
| ValueError
| TypeError
| IndexError
| AttributeError
| ZeroDivisionError
| StructError.

Inductive result (A : Type) : Type :=
| Ok (a : A)
| Raise (e : exn).

Arguments Ok {A} a.
Arguments Raise {A} e.

Module Py.

(** [a < b] on numbers. *)
Definition lt (a b : Q) : bool := negb (Qle_bool b a).

(** [a / b], true division: raises on a zero divisor. *)
Definition truediv (a b : Q) : result Q :=
  if Qeq_bool b 0 then Raise ZeroDivisionError else Ok (a / b)%Q.

(** [a % b] on integers: raises on a zero modulus, otherwise the
    remainder has the sign of [b], as [Z.modulo]. *)
Definition mod_ (a b : Z) : result Z :=
  if b =? 0 then Raise ZeroDivisionError else Ok (a mod b).

(** [a // b] on integers (floor division). *)
Definition floordiv (a b : Z) : result Z :=
  if b =? 0 then Raise ZeroDivisionError else Ok (a / b).

(** [int(x)]: truncation towards zero. *)
Definition int (x : Q) : Z := Z.quot (Qnum x) (Z.pos (Qden x)).

(** [str(n)] for an integer. *)
Definition str (n : Z) : string := NilZero.string_of_int (Z.to_int n).

(** [range(n)]. *)
Definition range (n : Z) : list Z := map Z.of_nat (seq 0 (Z.to_nat n)).

End Py.

(** ** Interval *)

(** Modelled from the spec: [interval.py] (imported by [joy.py] with
    [from interval import *]) is not among the sources.  The spec gives
    [Interval] two attributes [left] and [right]; [extend(value)] sets
    [left = min(left, value)] and [right = max(right, value)]; [adc2r()]
    applies the ADC-to-physical conversion to both bounds and re-sorts them
    as (min, max).  The conversion [getRbyADC] itself is an opaque function
    supplied by that module; it is a parameter of the development. *)
Record Interval : Type := mkInterval { left : Q; right : Q }.

Module IntervalOps.

Definition qmin (a b : Q) : Q := if Qle_bool a b then a else b.
Definition qmax (a b : Q) : Q := if Qle_bool a b then b else a.

(** Modelled from the spec: [extend(value)] of the missing [interval.py];
    afterwards [left = min(left, value)] and
    [right = max(left_old, right_old, value)]. *)
Definition extend (i : Interval) (value : Q) : Interval :=
  {| left := qmin (left i) value;
     right := qmax (qmax (left i) (right i)) value |}.

(** Modelled from the spec: [adc2r()] of the missing [interval.py]; the
    conversion is applied to both bounds, which are then re-sorted as
    (min, max). *)
Definition adc2r (getRbyADC : Q -> Q) (i : Interval) : Interval :=
  let a := getRbyADC (left i) in
  let b := getRbyADC (right i) in
  {| left := qmin a b; right := qmax a b |}.

End IntervalOps.

(** ** calc_f *)

(** [calc_f(inter1, inter2, val)], lines 13-29: [inter1] is the travel
    interval, [inter2] the dead zone.  The four tests run in order and the
    first one that holds decides. *)
Definition calc_f (inter1 inter2 : Interval) (val : Q) : result Q :=
  if Py.lt val (left inter1) then Ok (-1)%Q
  else if Py.lt val (left inter2) then
    Py.truediv (- (val - left inter2))%Q (left inter1 - left inter2)%Q
  else if Py.lt val (right inter2) then Ok 0%Q
  else if Py.lt val (right inter1) then
    Py.truediv (val - right inter2)%Q (right inter1 - right inter2)%Q
  else Ok 1%Q.

(** The travel interval contains the dead zone. *)
Definition nested (travel deadzone : Interval) : Prop :=
  (left travel <= left deadzone)%Q /\
  (left deadzone <= right deadzone)%Q /\
  (right deadzone <= right travel)%Q.

(** A position, as a proposition on the returned value. *)
Definition returns (r : result Q) (P : Q -> Prop) : Prop :=
  exists p, r = Ok p /\ P p.

(** ** The serial link *)

(** The open port ([serial.Serial(file, speed)]): [rx] holds the bytes the
    peer has sent and that are still to be read, [tx] the bytes written so
    far.  [read(size)] hands out at most [size] bytes; it returns fewer
    only when the peer's stream is exhausted. *)
Record Serial : Type := mkSerial { rx : list byte; tx : list byte }.

Module SerialOps.

Definition read (size : nat) (p : Serial) : list byte * Serial :=
  (firstn size (rx p), {| rx := skipn size (rx p); tx := tx p |}).

Definition write (data : list byte) (p : Serial) : Serial :=
  {| rx := rx p; tx := (tx p ++ data)%list |}.

End SerialOps.

Fixpoint bytes_eqb (a b : list byte) : bool :=
  match a, b with
  | [], [] => true
  | x :: a', y :: b' => Byte.eqb x y && bytes_eqb a' b'
  | _, _ => false
  end.

(** ** struct: the format [">hhbbB"] *)

Module Struct.

Definition u8 (b : byte) : Z := Z.of_N (Byte.to_N b).

Definition i8 (b : byte) : Z :=
  let n := u8 b in if n <? 128 then n else n - 256.

Definition i16 (hi lo : byte) : Z :=
  let n := u8 hi * 256 + u8 lo in if n <? 32768 then n else n - 65536.

(** [struct.calcsize(">hhbbB")]. *)
Definition calcsize_FMT : nat := 7.

(** [struct.unpack(">hhbbB", raw)]: raises unless [raw] has exactly
    seven bytes. *)
Definition unpack_FMT (raw : list byte) : result (Z * Z * Z * Z * Z) :=
  match raw with
  | [a; b; c; d; e; f; g] => Ok (i16 a b, i16 c d, i8 e, i8 f, u8 g)
  | _ => Raise StructError
  end.

(** [struct.pack(">B", 15)]. *)
Definition pack_B_15 : list byte := [x0f].

End Struct.

(** ** Text files *)

Module Text.

(** [f.readline()]: the next line with its newline, and what is left of
    the file; the empty string at the end of the file. *)
Fixpoint readline (s : string) : string * string :=
  match s with
  | EmptyString => (EmptyString, EmptyString)
  | String c s' =>
      if Ascii.eqb c "010"%char then (String c EmptyString, s')
      else let (l, r) := readline s' in (String c l, r)
  end.

(** [s.split(sep)] with an explicit one-character separator: one more
    piece than there are separators, empty pieces kept. *)
Fixpoint split (sep : ascii) (s : string) : list string :=
  match s with
  | EmptyString => [EmptyString]
  | String c s' =>
      if Ascii.eqb c sep then EmptyString :: split sep s'
      else match split sep s' with
           | [] => [String c EmptyString]
           | t :: ts => String c t :: ts
           end
  end.

End Text.

(** ** The Joy object and its environment *)

Record Joy : Type := mkJoy {
  config_file : option string;
  arduino : Serial;
  _center : option (list Q);
  _center_x_interval : option Interval;
  _center_y_interval : option Interval;
  _x_interval : option Interval;
  _y_interval : option Interval
}.

(** What the object acts on: the file system (path to contents), the
    standard output and the commands handed to [subprocess.call]. *)
Record World : Type := mkWorld {
  self : Joy;
  files : string -> option string;
  stdout : list string;
  calls : list (list string)
}.

(** The four interval attributes. *)
Inductive attr : Type := CenterX | CenterY | TravelX | TravelY.

Definition get_interval (a : attr) (j : Joy) : option Interval :=
  match a with
  | CenterX => _center_x_interval j
  | CenterY => _center_y_interval j
  | TravelX => _x_interval j
  | TravelY => _y_interval j
  end.

Definition set_interval (a : attr) (v : option Interval) (j : Joy) : Joy :=
  match a with
  | CenterX => mkJoy (config_file j) (arduino j) (_center j) v
                 (_center_y_interval j) (_x_interval j) (_y_interval j)
  | CenterY => mkJoy (config_file j) (arduino j) (_center j)
                 (_center_x_interval j) v (_x_interval j) (_y_interval j)
  | TravelX => mkJoy (config_file j) (arduino j) (_center j)
                 (_center_x_interval j) (_center_y_interval j) v (_y_interval j)
  | TravelY => mkJoy (config_file j) (arduino j) (_center j)
                 (_center_x_interval j) (_center_y_interval j) (_x_interval j) v
  end.

Definition set_center (v : option (list Q)) (j : Joy) : Joy :=
  mkJoy (config_file j) (arduino j) v (_center_x_interval j)
    (_center_y_interval j) (_x_interval j) (_y_interval j).

Definition set_config_file (v : option string) (j : Joy) : Joy :=
  mkJoy v (arduino j) (_center j) (_center_x_interval j)
    (_center_y_interval j) (_x_interval j) (_y_interval j).

Definition set_arduino (p : Serial) (j : Joy) : Joy :=
  mkJoy (config_file j) p (_center j) (_center_x_interval j)
    (_center_y_interval j) (_x_interval j) (_y_interval j).

Definition with_self (f : Joy -> Joy) (w : World) : World :=
  mkWorld (f (self w)) (files w) (stdout w) (calls w).

(** A new object on an open port: the five calibration attributes have
    their class-level value [None] (lines 41-45). *)
Definition fresh (port : Serial) (fs : string -> option string) : World :=
  mkWorld (mkJoy None port None None None None None) fs [] [].

(** ** Computations: state and exceptions *)

Definition M (A : Type) : Type := World -> result A * World.

Definition ret {A : Type} (a : A) : M A := fun w => (Ok a, w).

Definition raise {A : Type} (e : exn) : M A := fun w => (Raise e, w).

Definition bind {A B : Type} (m : M A) (k : A -> M B) : M B :=
  fun w =>
    match m w with
    | (Ok a, w') => k a w'
    | (Raise e, w') => (Raise e, w')
    end.

Definition lift {A : Type} (r : result A) : M A := fun w => (r, w).

Definition gets {A : Type} (f : World -> A) : M A := fun w => (Ok (f w), w).

Definition modify (f : World -> World) : M unit := fun w => (Ok tt, f w).

(** [try: m  except ...: h]: [handler e] is the clause that catches [e],
    if there is one; an exception of the handler itself is not caught. *)
Definition try_except {A : Type} (m : M A) (handler : exn -> option (M A))
  : M A :=
  fun w =>
    match m w with
    | (Ok a, w') => (Ok a, w')
    | (Raise e, w') =>
        match handler e with
        | Some h => h w'
        | None => (Raise e, w')
        end
    end.

Declare Scope py_scope.
Delimit Scope py_scope with py.
Notation "x <- m ;; k" := (bind m (fun x => k))
  (at level 100, m at next level, right associativity) : py_scope.
Notation "m ;; k" := (bind m (fun _ => k))
  (at level 100, right associativity) : py_scope.
Notation "' p <- m ;; k" := (bind m (fun x => let p := x in k))
  (at level 100, p pattern, m at next level, right associativity) : py_scope.

Local Open Scope py_scope.

(** [for x in l: body]. *)
Fixpoint for_ {A : Type} (l : list A) (body : A -> M unit) : M unit :=
  match l with
  | [] => ret tt
  | x :: l' => body x ;; for_ l' body
  end.

(** [print(s, end=e)]. *)
Definition print_end (s e : string) : M unit :=
  modify (fun w => mkWorld (self w) (files w) (stdout w ++ [(s ++ e)%string])%list
                     (calls w)).

Definition print (s : string) : M unit := print_end s (String "010"%char EmptyString).

Definition subprocess_call (argv : list string) : M unit :=
  modify (fun w => mkWorld (self w) (files w) (stdout w) (calls w ++ [argv])%list).

Definition write_file (path content : string) : M unit :=
  modify (fun w => mkWorld (self w)
                     (fun p => if String.eqb p path then Some content
                               else files w p)
                     (stdout w) (calls w)).

(** [open(path, "rt")]. *)
Definition open_rt (path : string) : M string :=
  fun w => match files w path with
           | Some content => (Ok content, w)
           | None => (Raise FileNotFoundError, w)
           end.

(** [self.arduino.read(size)]. *)
Definition arduino_read (size : nat) : M (list byte) :=
  fun w => let (data, p) := SerialOps.read size (arduino (self w)) in
           (Ok data, with_self (set_arduino p) w).

(** [self.arduino.write(data)]; [flush()] has no effect of its own here. *)
Definition arduino_write (data : list byte) : M unit :=
  modify (fun w => with_self (set_arduino (SerialOps.write data (arduino (self w)))) w).

(** An attribute that holds an interval: [None] has no [left], [right],
    [extend] or [adc2r]. *)
Definition the_interval (a : attr) : M Interval :=
  fun w => match get_interval a (self w) with
           | Some i => (Ok i, w)
           | None => (Raise AttributeError, w)
           end.

Definition assign (a : attr) (i : Interval) : M unit :=
  modify (with_self (set_interval a (Some i))).

(** [self._center[k] = f(self._center[k])]. *)
Definition center_update (k : nat) (f : Q -> result Q) : M unit :=
  fun w => match _center (self w) with
           | None => (Raise TypeError, w)
           | Some c =>
               match nth_error c k with
               | None => (Raise IndexError, w)
               | Some x =>
                   match f x with
                   | Ok y =>
                       (Ok tt, with_self (set_center
                          (Some (firstn k c ++ y :: skipn (S k) c)%list)) w)
                   | Raise e => (Raise e, w)
                   end
               end
           end.

(** ** class Joy *)

Definition _PROTOCOL_VERSION : list byte := ["b"%byte].

(** [calc_f] called on attributes that may still be [None]: the attribute
    access [inter.left] on [None] raises, and it is only evaluated when the
    tests before it did not return. *)
Definition calc_f_attr (inter1 inter2 : option Interval) (val : Q)
  : result Q :=
  match inter1, inter2 with
  | Some i1, Some i2 => calc_f i1 i2 val
  | Some i1, None =>
      if Py.lt val (left i1) then Ok (-1)%Q else Raise AttributeError
  | None, _ => Raise AttributeError
  end.

(** Modelled from the spec: the constructor of the missing [interval.py],
    applied to an unpacked list of arguments; an interval has exactly the
    two attributes [left] and [right], so any other number of arguments is
    a TypeError. *)
Definition Interval_of_args (args : list Q) : result Interval :=
  match args with
  | [l; r] => Ok (mkInterval l r)
  | _ => Raise TypeError
  end.

Section Joy.

(** The ADC-to-physical conversion of [interval.py]. *)
Variable getRbyADC : Q -> Q.

(** Python's [float(s)] on a string: [None] when it raises
    [ValueError]. *)
Variable float : string -> option Q.

(** Python's [str(x)] on a float. *)
Variable str_float : Q -> string.

(** [[float(x) for x in line.split(" ")]]: the first piece that does not
    parse raises. *)
Fixpoint floats_of (pieces : list string) : result (list Q) :=
  match pieces with
  | [] => Ok []
  | x :: rest =>
      match float x with
      | None => Raise ValueError
      | Some q =>
          match floats_of rest with
          | Ok qs => Ok (q :: qs)
          | Raise e => Raise e
          end
      end
  end.

Definition floats (line : string) : result (list Q) :=
  floats_of (Text.split " "%char line).

(** Modelled from the spec: [str(interval)] of the missing [interval.py],
    the two bounds space-separated in [left right] order; [str(None)] is
    ["None"]. *)
Definition str_interval (i : option Interval) : string :=
  match i with
  | Some i => (str_float (left i) ++ " " ++ str_float (right i))%string
  | None => "None"%string
  end.

(** Lines 65-78. *)
Definition load_config : M unit :=
  print "Load config..." ;;
  cfg <- gets (fun w => config_file (self w)) ;;
  match cfg with
  | None => ret tt
  | Some path =>
      f <- open_rt path ;;
      let (l1, f1) := Text.readline f in
      c <- lift (floats l1) ;;
      modify (with_self (set_center (Some c))) ;;
      let (l2, f2) := Text.readline f1 in
      a <- lift (floats l2) ;;
      i <- lift (Interval_of_args a) ;;
      assign CenterX i ;;
      let (l3, f3) := Text.readline f2 in
      a <- lift (floats l3) ;;
      i <- lift (Interval_of_args a) ;;
      assign CenterY i ;;
      let (l4, f4) := Text.readline f3 in
      a <- lift (floats l4) ;;
      i <- lift (Interval_of_args a) ;;
      assign TravelX i ;;
      let (l5, f5) := Text.readline f4 in
      a <- lift (floats l5) ;;
      i <- lift (Interval_of_args a) ;;
      assign TravelY i
  end.

(** Lines 80-99.  [open(path, "wt")] empties the file before the lines
    are computed. *)
Definition save_config : M unit :=
  cfg <- gets (fun w => config_file (self w)) ;;
  match cfg with
  | None => ret tt
  | Some path =>
      write_file path EmptyString ;;
      c <- gets (fun w => _center (self w)) ;;
      match c with
      | None => raise TypeError
      | Some c =>
          j <- gets self ;;
          let lines :=
            [ String.concat " " (map str_float c)
            ; str_interval (_center_x_interval j)
            ; str_interval (_center_y_interval j)
            ; str_interval (_x_interval j)
            ; str_interval (_y_interval j) ] in
          let lines :=
            map (fun line => (line ++ String "010"%char EmptyString)%string) lines in
          write_file path (String.concat EmptyString lines) ;;
          print "Config save!"
      end
  end.

(** Lines 160-167. *)
Definition _get_raw_data : M (Z * Z * Z * Z * Z) :=
  arduino_write Struct.pack_B_15 ;;
  raw <- arduino_read Struct.calcsize_FMT ;;
  lift (Struct.unpack_FMT raw).

(** [if i % (count // 100) == 0: print('\r' + str(i * 100 // count),
    end="%")], lines 122-124 and 146-148. *)
Definition progress (i count : Z) : M unit :=
  q <- lift (Py.floordiv count 100) ;;
  m <- lift (Py.mod_ i q) ;;
  if m =? 0 then
    p <- lift (Py.floordiv (i * 100) count) ;;
    print_end (String "013"%char (Py.str p)) "%"
  else ret tt.

(** [self.<a>.extend(value)] and [self.<a>.adc2r()]: the interval object
    is updated in place. *)
Definition extend_attr (a : attr) (value : Z) : M unit :=
  i <- the_interval a ;;
  assign a (IntervalOps.extend i (inject_Z value)).

Definition adc2r_attr (a : attr) : M unit :=
  i <- the_interval a ;;
  assign a (IntervalOps.adc2r getRbyADC i).

Definition center_at (k : nat) : M Q :=
  fun w => match _center (self w) with
           | None => (Raise TypeError, w)
           | Some c => match nth_error c k with
                       | Some x => (Ok x, w)
                       | None => (Raise IndexError, w)
                       end
           end.

(** Lines 101-158.  The two [time.sleep(4)] calls are pauses and have no
    counterpart here. *)
Definition calibrate (count : Z) : M unit :=
  print "Need calibrate!" ;;
  print "Drop old values..." ;;
  modify (with_self (set_center (Some [0%Q; 0%Q]))) ;;
  ' (xV, yV, _, _, _) <- _get_raw_data ;;
  assign CenterX (mkInterval (inject_Z xV) (inject_Z xV)) ;;
  assign CenterY (mkInterval (inject_Z yV) (inject_Z yV)) ;;
  assign TravelX (mkInterval (inject_Z xV) (inject_Z xV)) ;;
  assign TravelY (mkInterval (inject_Z yV) (inject_Z yV)) ;;
  print "Put joy into center after 4 second..." ;;
  for_ (Py.range count) (fun i =>
    ' (xV, yV, _, _, _) <- _get_raw_data ;;
    center_update 0 (fun c => Ok (c + inject_Z xV)%Q) ;;
    center_update 1 (fun c => Ok (c + inject_Z yV)%Q) ;;
    extend_attr CenterX xV ;;
    extend_attr CenterY yV ;;
    progress i count) ;;
  center_update 0 (fun c => Py.truediv c (inject_Z count)) ;;
  center_update 1 (fun c => Py.truediv c (inject_Z count)) ;;
  center_update 0 (fun c => Ok (getRbyADC c)) ;;
  center_update 1 (fun c => Ok (getRbyADC c)) ;;
  adc2r_attr CenterY ;;
  adc2r_attr CenterX ;;
  cxi <- the_interval CenterX ;;
  cyi <- the_interval CenterY ;;
  c0 <- center_at 0 ;;
  c1 <- center_at 1 ;;
  print ("Ok! X:(" ++ str_float (left cxi) ++ ", " ++ str_float c0 ++ ", "
         ++ str_float (right cxi) ++ "); Y:(" ++ str_float (left cyi) ++ ", "
         ++ str_float c1 ++ ", " ++ str_float (right cyi) ++ ")")%string ;;
  print "Move your joy up-down-left-right after 4 sec..." ;;
  for_ (Py.range count) (fun i =>
    ' (xV, yV, _, _, _) <- _get_raw_data ;;
    extend_attr TravelX xV ;;
    extend_attr TravelY yV ;;
    progress i count) ;;
  adc2r_attr TravelX ;;
  adc2r_attr TravelY ;;
  xi <- the_interval TravelX ;;
  print ("Ok! X:[" ++ str_float (left xi) ++ ".." ++ str_float (right xi)
         ++ "]; [" ++ str_float (left xi) ++ ".." ++ str_float (right xi)
         ++ "]")%string ;;
  save_config.

(** [Joy.__init__(file, speed, config_file)], lines 47-63, on the port
    that [serial.Serial(file, speed)] opened.  [calibrate()] runs with
    its default count of 500. *)
Definition Joy_init (config : option string) : M unit :=
  modify (with_self (set_config_file config)) ;;
  print "Wait..." ;;
  readByte <- arduino_read 1 ;;
  if negb (bytes_eqb readByte _PROTOCOL_VERSION) then
    raise (RuntimeError "Joy Protocol error")
  else
    try_except load_config
      (fun e => match e with
                | FileNotFoundError => Some (calibrate 500)
                | ValueError => Some (calibrate 500)
                | _ => None
                end).

(** Lines 169-175. *)
Definition get_data : M (Q * Q * Z) :=
  ' (xV, yV, _, _, btn_mask) <- _get_raw_data ;;
  j <- gets self ;;
  xPos <- lift (calc_f_attr (_x_interval j) (_center_x_interval j)
                  (getRbyADC (inject_Z xV))) ;;
  yPos <- lift (calc_f_attr (_y_interval j) (_center_y_interval j)
                  (getRbyADC (inject_Z yV))) ;;
  ret (xPos, yPos, btn_mask).

End Joy.

(** ** class JoyMouse *)

Definition RELATIVE_MODE : Z := 0.
Definition ABSOLUTE_MODE : Z := 1.

(** The association table, in the order of the dictionary literal. *)
Definition _BTN_ASSOC : list (Z * (string * string)) :=
  [ (0, ("key", "Right")); (1, ("key", "Up")); (2, ("key", "Left"));
    (3, ("key", "Down")); (5, ("mouse", "3")); (6, ("mouse", "1")) ]%string.

(** The attributes [JoyMouse.__init__] adds to those of [Joy]. *)
Record JoyMouse : Type := mkJoyMouse {
  screen_size : Z * Z;
  mode : Z;
  _old_btn_mask : Z
}.

(** Lines 190-194. *)
Definition JoyMouse_init (getRbyADC : Q -> Q) (float : string -> option Q)
    (str_float : Q -> string) (config : option string) (mode : Z)
    (screen_size : option (Z * Z)) : M JoyMouse :=
  Joy_init getRbyADC float str_float config ;;
  ret (mkJoyMouse (match screen_size with
                   | Some s => s
                   | None => (1920, 1080)
                   end) mode 0).

(** Lines 196-214.  The conditional expression of line 197 binds weaker
    than [+]: it chooses between ["mousemove" + "_relative"] and the empty string. *)
Definition _mouse (jm : JoyMouse) (xPos yPos : Q) : list string :=
  let param :=
    if mode jm =? RELATIVE_MODE then ("mousemove" ++ "_relative")%string
    else EmptyString in
  let paramX := xPos in
  let paramY := yPos in
  let '(paramX, paramY) :=
    if mode jm =? RELATIVE_MODE then
      let paramX := (paramX * 10)%Q in
      let paramY := (paramY * 10)%Q in
      ((paramX ^ 3)%Q, (paramY ^ 3)%Q)
    else (paramX, paramY) in
  let paramX := Py.int paramX in
  let paramY := Py.int paramY in
  if negb ((paramX =? paramY) && (paramY =? 0)) then
    [param; "--"%string; Py.str paramX; Py.str paramY]
  else [].

(** Lines 216-226. *)
Definition _keys (jm : JoyMouse) (btnMask : Z) : list string * JoyMouse :=
  let actions :=
    fold_left
      (fun actions '(k, (tp, val)) =>
         let newVal := Z.land (Z.shiftr btnMask k) 1 in
         if negb (newVal =? Z.land (Z.shiftr (_old_btn_mask jm) k) 1) then
           (actions ++ [String.append tp (if negb (newVal =? 0) then "down"%string
                                              else "up"%string);
                        val])%list
         else actions)
      _BTN_ASSOC [] in
  (actions, mkJoyMouse (screen_size jm) (mode jm) btnMask).

(** Lines 228-237. *)
Definition step (getRbyADC : Q -> Q) (jm : JoyMouse) : M JoyMouse :=
  ' (xPos, yPos, btnMask) <- get_data getRbyADC ;;
  let actions := _mouse jm xPos yPos in
  let (pressed, jm') := _keys jm btnMask in
  let actions := (actions ++ pressed)%list in
  match actions with
  | [] => ret jm'
  | _ =>
      subprocess_call ("xdotool"%string :: actions) ;;
      print (String.concat " " actions) ;;
      ret jm'
  end.

(** ** The edge detector, as the specification words it *)

(** What one entry of the table contributes: a press on a 0-to-1
    transition of its bit, a release on a 1-to-0 transition, nothing when
    the bit is unchanged. *)
Definition edge_action (old new : Z) (entry : Z * (string * string))
  : list string :=
  let '(k, (tp, val)) := entry in
  match Z.testbit old k, Z.testbit new k with
  | false, true => [(tp ++ "down")%string; val]
  | true, false => [(tp ++ "up")%string; val]
  | _, _ => []
  end.

(** ** Worlds met in the statements *)

(** The world after the handshake byte was read. *)
Definition after_handshake (port : Serial) (fs : string -> option string)
    (config : option string) : World :=
  mkWorld
    (mkJoy config (mkSerial (skipn 1 (rx port)) (tx port))
       None None None None None)
    fs ["Wait..." ++ String "010"%char EmptyString]%string [].




(** ** The persisted profile, as the specification words it *)

(** Line [n] (from 0) of a file, as successive [readline] calls see it. *)
Definition nth_line (n : nat) (content : string) : string :=
  fst (Text.readline (Nat.iter n (fun s => snd (Text.readline s)) content)).




(** ** Sample inputs *)

(** One reply of the peer: x_raw = 512, y_raw = 496, no button. *)
Definition sample_reply : list byte := [x02; x00; x01; xf0; x00; x00; x00].

(** [n] replies in a row. *)
Definition replies (n : nat) : list byte :=
  List.concat (repeat sample_reply n).

(** A file system without any file. *)
Definition no_files : string -> option string := fun _ => None.

(** Stand-ins for the conversion and for the float syntax: the identity,
    integers in decimal (a final newline is dropped, as [float] drops
    surrounding blanks), and a fixed rendering. *)
Definition same_value (q : Q) : Q := q.

Fixpoint drop_newline (s : string) : string :=
  match s with
  | EmptyString => EmptyString
  | String c s' =>
      match s' with
      | EmptyString => if Ascii.eqb c "010"%char then EmptyString else s
      | _ => String c (drop_newline s')
      end
  end.

Definition integer_float (s : string) : option Q :=
  match NilEmpty.int_of_string (drop_newline s) with
  | Some d => Some (inject_Z (Z.of_int d))
  | None => None
  end.

Definition plain_str (q : Q) : string := Py.str (Py.int q).

(** A profile whose second line has a piece that is not a number. *)
Definition corrupt_profile : string :=
  ("512 496" ++ String "010"%char ("500 x" ++ String "010"%char EmptyString))%string.

Definition one_file (path content : string) : string -> option string :=
  fun p => if String.eqb p path then Some content else None.

(** ** The claims on [calc_f], as the specification words them *)

(** The five-region law at one input: the result is a number of [-1, 1]
    and each region, taken by itself, gives its value. *)
Definition five_region_law (travel deadzone : Interval) (value : Q) : Prop :=
  returns (calc_f travel deadzone value) (fun p => (-1 <= p)%Q /\ (p <= 1)%Q) /\
  ((value < left travel)%Q ->
   returns (calc_f travel deadzone value) (fun p => (p == -1)%Q)) /\
  ((left travel <= value)%Q -> (value < left deadzone)%Q ->
   returns (calc_f travel deadzone value)
     (fun p => (p == - (value - left deadzone)
                     / (left travel - left deadzone))%Q)) /\
  ((left deadzone <= value)%Q -> (value < right deadzone)%Q ->
   returns (calc_f travel deadzone value) (fun p => (p == 0)%Q)) /\
  ((right deadzone <= value)%Q -> (value < right travel)%Q ->
   returns (calc_f travel deadzone value)
     (fun p => (p == (value - right deadzone)
                     / (right travel - right deadzone))%Q)) /\
  ((right travel <= value)%Q ->
   returns (calc_f travel deadzone value) (fun p => (p == 1)%Q)).

(** A collapsed calibration: one of the two ramps has a zero denominator. *)
Definition collapsed (travel deadzone : Interval) : Prop :=
  (left travel == left deadzone)%Q \/ (right deadzone == right travel)%Q.

(** A collapsed calibration is reported: the call raises. *)
Definition reports_collapsed (travel deadzone : Interval) (value : Q) : Prop :=
  collapsed travel deadzone ->
  exists e, calc_f travel deadzone value = Raise e.

(** ** Further notions used in the statements *)

(** The two masks agree on every bit of the association table. *)
Definition mapped_bits_equal (old new : Z) : Prop :=
  forall entry, In entry _BTN_ASSOC ->
                Z.testbit old (fst entry) = Z.testbit new (fst entry).

(** A decoded sample within the ranges of the format [">hhbbB"]. *)
Definition in_format (d : Z * Z * Z * Z * Z) : Prop :=
  let '(x_raw, y_raw, x_val, y_val, button_mask) := d in
  -32768 <= x_raw <= 32767 /\ -32768 <= y_raw <= 32767 /\
  -128 <= x_val <= 127 /\ -128 <= y_val <= 127 /\
  0 <= button_mask <= 255.

(** The port after one request was written and [n] bytes were read. *)
Definition after_request (n : nat) (w : World) : World :=
  with_self
    (set_arduino
       (mkSerial (skipn n (rx (arduino (self w))))
          (tx (arduino (self w)) ++ Struct.pack_B_15)%list))
    w.

(** A calibrated object on [port]: dead zones [500, 520) and [490, 500)
    inside a travel of [0, 1023] on both axes. *)
Definition sample_calibrated (port : Serial) : World :=
  mkWorld
    (mkJoy None port (Some [512; 496]%Q)
       (Some (mkInterval 500 520)) (Some (mkInterval 490 500))
       (Some (mkInterval 0 1023)) (Some (mkInterval 0 1023)))
    no_files [] [].

(** A reply with the stick pushed right (x_raw = 800) and bit 6 set. *)
Definition pushed_reply : list byte := [x03; x20; x01; xf0; x00; x00; x40].

(** [s] does not contain the character [c]. *)
Fixpoint free_of (c : ascii) (s : string) : bool :=
  match s with
  | EmptyString => true
  | String x s' => negb (Ascii.eqb x c) && free_of c s'
  end.

(** The number [q] is written by [str] without blank or newline and read
    back by [float], also when a newline follows it. *)
Definition readable (float : string -> option Q) (str_float : Q -> string)
    (q : Q) : Prop :=
  free_of " "%char (str_float q) = true /\
  free_of "010"%char (str_float q) = true /\
  float (str_float q) = Some q /\
  float (str_float q ++ String "010"%char EmptyString)%string = Some q.

(** A profile of five well-formed lines. *)
Definition profile_of (float : string -> option Q) (content : string)
    (c : list Q) (cx cy x y : Interval) : Prop :=
  floats float (nth_line 0 content) = Ok c /\
  floats float (nth_line 1 content) = Ok [left cx; right cx] /\
  floats float (nth_line 2 content) = Ok [left cy; right cy] /\
  floats float (nth_line 3 content) = Ok [left x; right x] /\
  floats float (nth_line 4 content) = Ok [left y; right y].

(** The five lines [save_config] writes. *)
Definition profile_text (str_float : Q -> string) (c : list Q)
    (cx cy x y : Interval) : string :=
  String.concat EmptyString
    (map (fun line => (line ++ String "010"%char EmptyString)%string)
       [ String.concat " " (map str_float c);
         str_interval str_float (Some cx);
         str_interval str_float (Some cy);
         str_interval str_float (Some x);
         str_interval str_float (Some y) ]).

(** A world with a profile of integers in its file. *)
Definition integer_profile : string :=
  ("512 496" ++ String "010"%char
   ("500 520" ++ String "010"%char
    ("490 500" ++ String "010"%char
     ("0 1023" ++ String "010"%char
      ("0 1023" ++ String "010"%char EmptyString)))))%string.

(** A calibrated object that saves to ["joy.conf"]. *)
Definition sample_saving (port : Serial) : World :=
  with_self (set_config_file (Some "joy.conf"%string)) (sample_calibrated port).

(** [m] run from a world of [P] returns, with a value and in a world of
    [Q]. *)
Definition total {A : Type} (P : World -> Prop) (m : M A)
    (Q : A -> World -> Prop) : Prop :=
  forall w, P w -> exists a w', m w = (Ok a, w') /\ Q a w'.

(** The object is [j], the files are [fs] and the commands run so far are
    [cl]; the standard output is left open. *)
Definition at_ (j : Joy) (fs : string -> option string)
    (cl : list (list string)) (w : World) : Prop :=
  self w = j /\ files w = fs /\ calls w = cl.

(** The two raw axis values of a reply. *)
Definition frame_x (frame : list byte) : Z :=
  match frame with
  | a :: b :: _ => Struct.i16 a b
  | _ => 0
  end.

Definition frame_y (frame : list byte) : Z :=
  match frame with
  | _ :: _ :: c :: d :: _ => Struct.i16 c d
  | _ => 0
  end.

(** The running sum and the running interval over a list of replies, as
    the sampling loops accumulate them. *)
Definition sum_of (axis : list byte -> Z) (frames : list (list byte)) (c : Q)
  : Q :=
  fold_left (fun c frame => (c + inject_Z (axis frame))%Q) frames c.

Definition hull_of (axis : list byte -> Z) (frames : list (list byte))
    (i : Interval) : Interval :=
  fold_left (fun i frame => IntervalOps.extend i (inject_Z (axis frame)))
    frames i.

(** The file system after [save_config]: the calibration file, emptied
    when it is opened and then written, holds the five lines; every other
    file is as before.  Without a path nothing is written. *)
Definition saved (str_float : Q -> string) (j : Joy)
    (fs : string -> option string) : string -> option string :=
  match config_file j, _center j with
  | Some path, Some c =>
      fun p =>
        if String.eqb p path then
          Some (String.concat EmptyString
                  (map (fun line => (line ++ String "010"%char EmptyString)%string)
                     [ String.concat " " (map str_float c);
                       str_interval str_float (_center_x_interval j);
                       str_interval str_float (_center_y_interval j);
                       str_interval str_float (_x_interval j);
                       str_interval str_float (_y_interval j) ]))
        else if String.eqb p path then Some EmptyString else fs p
  | _, _ => fs
  end.

(** The object after the first sampling loop has consumed [frames]. *)
Definition after_centering (frames : list (list byte)) (rest : list byte)
    (c0 c1 : Q) (cx cy : Interval) (j : Joy) : Joy :=
  mkJoy (config_file j)
    (mkSerial rest
       (tx (arduino j) ++ repeat x0f (List.length frames))%list)
    (Some [sum_of frame_x frames c0; sum_of frame_y frames c1])
    (Some (hull_of frame_x frames cx)) (Some (hull_of frame_y frames cy))
    (_x_interval j) (_y_interval j).

(** The object after the second sampling loop has consumed [frames]. *)
Definition after_sweeping (frames : list (list byte)) (rest : list byte)
    (x y : Interval) (j : Joy) : Joy :=
  mkJoy (config_file j)
    (mkSerial rest
       (tx (arduino j) ++ repeat x0f (List.length frames))%list)
    (_center j) (_center_x_interval j) (_center_y_interval j)
    (Some (hull_of frame_x frames x)) (Some (hull_of frame_y frames y)).

(** What [calibrate] computes from the replies of the peer: [first] seeds
    the four intervals, [centered] are the replies of the first loop and
    [swept] those of the second. *)
Definition calibration (getRbyADC : Q -> Q) (count : Z) (first : list byte)
    (centered swept : list (list byte)) (rest : list byte) (j : Joy) : Joy :=
  let x0 := inject_Z (frame_x first) in
  let y0 := inject_Z (frame_y first) in
  mkJoy (config_file j)
    (mkSerial rest
       (tx (arduino j)
        ++ repeat x0f (1 + List.length centered + List.length swept))%list)
    (Some [getRbyADC (sum_of frame_x centered 0 / inject_Z count)%Q;
           getRbyADC (sum_of frame_y centered 0 / inject_Z count)%Q])
    (Some (IntervalOps.adc2r getRbyADC
             (hull_of frame_x centered (mkInterval x0 x0))))
    (Some (IntervalOps.adc2r getRbyADC
             (hull_of frame_y centered (mkInterval y0 y0))))
    (Some (IntervalOps.adc2r getRbyADC
             (hull_of frame_x swept (mkInterval x0 x0))))
    (Some (IntervalOps.adc2r getRbyADC
             (hull_of frame_y swept (mkInterval y0 y0)))).

(** The numbers of a profile, in the order [save_config] writes them. *)
Definition profile_numbers (j : Joy) : list Q :=
  (match _center j with Some c => c | None => [] end
   ++ flat_map (fun a => match get_interval a j with
                         | Some i => [left i; right i]
                         | None => []
                         end)
        [CenterX; CenterY; TravelX; TravelY])%list.

(** A stand-in for the conversion whose values are whole numbers. *)
Definition whole (q : Q) : Q := inject_Z (Qfloor q).

(** What a method of [Joy] may do to the world [w0] it starts from: the
    calibration-file path is [cfg]; no command is run; no file other than
    the calibration file is touched; only request bytes 15 are written to
    the port; and the port is read from the front only. *)
Definition quiet (cfg : option string) (w0 w : World) : Prop :=
  config_file (self w) = cfg /\
  calls w = calls w0 /\
  (forall p, cfg <> Some p -> files w p = files w0 p) /\
  (exists n, tx (arduino (self w))
             = (tx (arduino (self w0)) ++ repeat x0f n)%list) /\
  (exists n, rx (arduino (self w)) = skipn n (rx (arduino (self w0)))).

(** [m] keeps [I], whether it returns or raises. *)
Definition keeps {A : Type} (I : World -> Prop) (m : M A) : Prop :=
  forall w, I w -> I (snd (m w)).

(** ** Facts on the comparisons *)

Lemma lt_true (a b : Q) : Py.lt a b = true <-> (a < b)%Q.
Proof.
  unfold Py.lt. rewrite negb_true_iff. split; intro H.
  - apply Qnot_le_lt. intro Hle. apply Qle_bool_iff in Hle. congruence.
  - destruct (Qle_bool b a) eqn:E; [|reflexivity].
    apply Qle_bool_iff in E. exfalso. exact (Qlt_not_le _ _ H E).
Qed.

Lemma lt_false (a b : Q) : Py.lt a b = false <-> (b <= a)%Q.
Proof.
  unfold Py.lt. rewrite negb_false_iff. apply Qle_bool_iff.
Qed.

Lemma truediv_ok (a b : Q) : ~ (b == 0)%Q -> Py.truediv a b = Ok (a / b)%Q.
Proof.
  intro H. unfold Py.truediv. destruct (Qeq_bool b 0) eqn:E; [|reflexivity].
  apply Qeq_bool_iff in E. contradiction.
Qed.

Ltac cmp_cases :=
  repeat match goal with
  | |- context [Py.lt ?a ?b] =>
      let E := fresh "E" in
      destruct (Py.lt a b) eqn:E;
      [apply lt_true in E | apply lt_false in E]
  end.

(** ** The two ramps *)

Lemma left_ramp_bounds (tl dl v : Q) :
  (tl <= v)%Q -> (v < dl)%Q ->
  (-1 <= - (v - dl) / (tl - dl))%Q /\ (- (v - dl) / (tl - dl) < 0)%Q.
Proof.
  intros H1 H2.
  assert (Hd : (0 < dl - tl)%Q) by lra.
  assert (E : (- (v - dl) / (tl - dl) == (v - dl) / (dl - tl))%Q)
    by (field; lra).
  rewrite E. split.
  - apply Qle_shift_div_l; [exact Hd | lra].
  - apply Qlt_shift_div_r; [exact Hd | lra].
Qed.

Lemma right_ramp_bounds (dr tr v : Q) :
  (dr <= v)%Q -> (v < tr)%Q ->
  (0 <= (v - dr) / (tr - dr))%Q /\ ((v - dr) / (tr - dr) < 1)%Q.
Proof.
  intros H1 H2.
  assert (Hd : (0 < tr - dr)%Q) by lra.
  split.
  - apply Qle_shift_div_l; [exact Hd | lra].
  - apply Qlt_shift_div_r; [exact Hd | lra].
Qed.

Lemma left_ramp_mono (tl dl v1 v2 : Q) :
  (tl < dl)%Q -> (v1 <= v2)%Q ->
  (- (v1 - dl) / (tl - dl) <= - (v2 - dl) / (tl - dl))%Q.
Proof.
  intros Hd H.
  assert (E : forall v, (- (v - dl) / (tl - dl) == (v - dl) / (dl - tl))%Q)
    by (intro v; field; lra).
  rewrite !E. unfold Qdiv.
  apply Qmult_le_compat_r; [lra|].
  apply Qlt_le_weak, Qinv_lt_0_compat. lra.
Qed.

Lemma right_ramp_mono (dr tr v1 v2 : Q) :
  (dr < tr)%Q -> (v1 <= v2)%Q ->
  ((v1 - dr) / (tr - dr) <= (v2 - dr) / (tr - dr))%Q.
Proof.
  intros Hd H. unfold Qdiv.
  apply Qmult_le_compat_r; [lra|].
  apply Qlt_le_weak, Qinv_lt_0_compat. lra.
Qed.

(** [calc_f] in closed form: the divisions it reaches never have a zero
    divisor, because the test that guards each ramp makes the two bounds of
    the ramp differ. *)
Lemma calc_f_cases (t d : Interval) (v : Q) :
  (v < left t)%Q /\ calc_f t d v = Ok (-1)%Q
  \/ (left t <= v)%Q /\ (v < left d)%Q /\
     calc_f t d v = Ok (- (v - left d) / (left t - left d))%Q
  \/ (left t <= v)%Q /\ (left d <= v)%Q /\ (v < right d)%Q /\
     calc_f t d v = Ok 0%Q
  \/ (left t <= v)%Q /\ (left d <= v)%Q /\ (right d <= v)%Q /\
     (v < right t)%Q /\
     calc_f t d v = Ok ((v - right d) / (right t - right d))%Q
  \/ (left t <= v)%Q /\ (left d <= v)%Q /\ (right d <= v)%Q /\
     (right t <= v)%Q /\ calc_f t d v = Ok 1%Q.
Proof.
  unfold calc_f. cmp_cases.
  - left. auto.
  - right; left. repeat split; auto. apply truediv_ok. lra.
  - right; right; left. auto.
  - right; right; right; left. repeat split; auto. apply truediv_ok. lra.
  - right; right; right; right. auto.
Qed.

Lemma calc_f_range (t d : Interval) (v : Q) :
  returns (calc_f t d v) (fun p => (-1 <= p)%Q /\ (p <= 1)%Q).
Proof.
  destruct (calc_f_cases t d v)
    as [[_ E]|[(H1 & H2 & E)|[(_ & _ & _ & E)|[(_ & _ & H1 & H2 & E)|(_ & _ & _ & _ & E)]]]];
    rewrite E; eexists; (split; [reflexivity|]).
  - lra.
  - destruct (left_ramp_bounds _ _ _ H1 H2). lra.
  - lra.
  - destruct (right_ramp_bounds _ _ _ H1 H2). lra.
  - lra.
Qed.

(** ** The piecewise law *)

Lemma returns_intro (r : result Q) (P : Q -> Prop) (p : Q) :
  r = Ok p -> P p -> returns r P.
Proof. intros E H. exists p. split; assumption. Qed.

Lemma calc_f_nested_law (t d : Interval) (v : Q) :
  nested t d -> five_region_law t d v.
Proof.
  intros (N1 & N2 & N3). split; [apply calc_f_range|].
  destruct (calc_f_cases t d v)
    as [[H E]|[(H1 & H2 & E)|[(H1 & H2 & H3 & E)|[(H1 & H2 & H3 & H4 & E)|(H1 & H2 & H3 & H4 & E)]]]];
    repeat split; intros;
    solve [ eapply returns_intro; [exact E | reflexivity]
          | exfalso; lra ].
Qed.

(** C1 (as amended): for every value and every pair of intervals the
    position is a number of [-1, 1], and the four tests apply in order,
    the first that holds deciding: [-1] below [travel.left]; else the left
    ramp below [deadzone.left]; else [0] below [deadzone.right]; else the
    right ramp below [travel.right]; else [1].  When the travel interval
    contains the dead zone ([travel.left <= deadzone.left <=
    deadzone.right <= travel.right]) this is the five-region law, each
    region standing by itself. *)
Theorem calc_f_five_regions (travel deadzone : Interval) (value : Q) :
  returns (calc_f travel deadzone value) (fun p => (-1 <= p)%Q /\ (p <= 1)%Q) /\
  ((value < left travel)%Q -> calc_f travel deadzone value = Ok (-1)%Q) /\
  ((left travel <= value)%Q -> (value < left deadzone)%Q ->
   calc_f travel deadzone value
   = Ok (- (value - left deadzone) / (left travel - left deadzone))%Q) /\
  ((left travel <= value)%Q -> (left deadzone <= value)%Q ->
   (value < right deadzone)%Q -> calc_f travel deadzone value = Ok 0%Q) /\
  ((left travel <= value)%Q -> (left deadzone <= value)%Q ->
   (right deadzone <= value)%Q -> (value < right travel)%Q ->
   calc_f travel deadzone value
   = Ok ((value - right deadzone) / (right travel - right deadzone))%Q) /\
  ((left travel <= value)%Q -> (left deadzone <= value)%Q ->
   (right deadzone <= value)%Q -> (right travel <= value)%Q ->
   calc_f travel deadzone value = Ok 1%Q) /\
  (nested travel deadzone -> five_region_law travel deadzone value).
Proof.
  split; [apply calc_f_range|].
  split; [|split; [|split; [|split; [|split]]]];
    try apply calc_f_nested_law;
    intros;
    destruct (calc_f_cases travel deadzone value)
      as [[? E]|[(? & ? & E)|[(? & ? & ? & E)|[(? & ? & ? & ? & E)|(? & ? & ? & ? & E)]]]];
    solve [exact E | exfalso; lra].
Qed.

Lemma calc_f_five_regions_witness :
  five_region_law (mkInterval 0 10) (mkInterval 4 6) 7 /\
  calc_f (mkInterval 0 10) (mkInterval 4 6) 7 = Ok ((7 - 6) / (10 - 6))%Q.
Proof.
  destruct (calc_f_five_regions (mkInterval 0 10) (mkInterval 4 6) 7)
    as (_ & _ & _ & _ & Hramp & _ & Hlaw).
  split.
  - apply Hlaw. unfold nested, Qle; simpl. lia.
  - apply Hramp; unfold Qle, Qlt; simpl; lia.
Defined.

(** C1 (as stated) fails when the dead zone is not inside the travel
    interval: with travel [5, 10] and dead zone [0, 3] the value 1 lies in
    the dead zone, and the position is -1, not 0. *)
Lemma calc_f_five_regions_counterexample :
  calc_f (mkInterval 5 10) (mkInterval 0 3) 1 = Ok (-1)%Q /\
  ~ five_region_law (mkInterval 5 10) (mkInterval 0 3) 1.
Proof.
  split; [reflexivity|].
  intros (_ & _ & _ & H & _).
  destruct H as (p & E & Hp).
  - unfold Qle; simpl; lia.
  - unfold Qlt; simpl; lia.
  - vm_compute in E. injection E as <-. vm_compute in Hp. discriminate.
Qed.

(** ** Collapsed calibrations *)

(** C7 (as amended): when [travel.left == deadzone.left] or
    [deadzone.right == travel.right], [calc_f] raises nothing and divides
    by no zero: the ramp whose denominator would vanish has an empty
    region and is never evaluated, and the call returns an ordinary
    position of [-1, 1] (with a collapsed left ramp: -1 or a position from
    0 up; with a collapsed right ramp: a position up to 0, or 1). *)
Theorem calc_f_collapsed_returns (travel deadzone : Interval) (value : Q) :
  collapsed travel deadzone ->
  returns (calc_f travel deadzone value) (fun p => (-1 <= p)%Q /\ (p <= 1)%Q) /\
  ((left travel == left deadzone)%Q ->
   returns (calc_f travel deadzone value) (fun p => (p == -1)%Q \/ (0 <= p)%Q)) /\
  ((right deadzone == right travel)%Q ->
   returns (calc_f travel deadzone value) (fun p => (p <= 0)%Q \/ (p == 1)%Q)).
Proof.
  intros _. split; [apply calc_f_range|].
  split; intro C;
    destruct (calc_f_cases travel deadzone value)
      as [[H E]|[(H1 & H2 & E)|[(H1 & H2 & H3 & E)|[(H1 & H2 & H3 & H4 & E)|(H1 & H2 & H3 & H4 & E)]]]];
    try (exfalso; lra);
    (eapply returns_intro; [exact E|]).
  - left; reflexivity.
  - right; lra.
  - right. destruct (right_ramp_bounds _ _ _ H3 H4). lra.
  - right; lra.
  - left; lra.
  - left. destruct (left_ramp_bounds _ _ _ H1 H2). lra.
  - left; lra.
  - right; reflexivity.
Qed.

Lemma calc_f_collapsed_returns_witness :
  returns (calc_f (mkInterval 2 10) (mkInterval 2 3) 2)
    (fun p => (-1 <= p)%Q /\ (p <= 1)%Q).
Proof.
  apply (calc_f_collapsed_returns (mkInterval 2 10) (mkInterval 2 3) 2).
  left. reflexivity.
Defined.

(** C7 (as stated) fails: with travel [2, 10] and dead zone [2, 3] the
    left ramp has a zero denominator, and the value 2 is mapped to 0
    without any error. *)
Lemma calc_f_collapsed_counterexample :
  collapsed (mkInterval 2 10) (mkInterval 2 3) /\
  calc_f (mkInterval 2 10) (mkInterval 2 3) 2 = Ok 0%Q /\
  ~ reports_collapsed (mkInterval 2 10) (mkInterval 2 3) 2.
Proof.
  assert (C : collapsed (mkInterval 2 10) (mkInterval 2 3))
    by (left; reflexivity).
  split; [exact C|]. split; [reflexivity|].
  intro H. destruct (H C) as [e E]. discriminate E.
Qed.

(** ** Monotonicity *)

Lemma calc_f_monotone_any (t d : Interval) (v1 v2 : Q) :
  (v1 <= v2)%Q ->
  exists p1 p2,
    calc_f t d v1 = Ok p1 /\ calc_f t d v2 = Ok p2 /\ (p1 <= p2)%Q.
Proof.
  intro Hv.
  destruct (calc_f_cases t d v1)
    as [[A1 E1]|[(A1 & A2 & E1)|[(A1 & A2 & A3 & E1)|[(A1 & A2 & A3 & A4 & E1)|(A1 & A2 & A3 & A4 & E1)]]]];
  destruct (calc_f_cases t d v2)
    as [[B1 E2]|[(B1 & B2 & E2)|[(B1 & B2 & B3 & E2)|[(B1 & B2 & B3 & B4 & E2)|(B1 & B2 & B3 & B4 & E2)]]]];
  try (exfalso; lra);
  rewrite E1, E2; do 2 eexists; (split; [reflexivity|]); (split; [reflexivity|]);
  try lra;
  try (pose proof (left_ramp_bounds _ _ _ A1 A2));
  try (pose proof (left_ramp_bounds _ _ _ B1 B2));
  try (pose proof (right_ramp_bounds _ _ _ A3 A4));
  try (pose proof (right_ramp_bounds _ _ _ B3 B4));
  try (apply left_ramp_mono; lra);
  try (apply right_ramp_mono; lra);
  lra.
Qed.

(** C9: for fixed intervals with [travel.left <= deadzone.left <=
    deadzone.right <= travel.right], the position is non-decreasing in the
    value: [v1 <= v2] gives [position(v1) <= position(v2)], both calls
    returning a position. *)
Theorem calc_f_monotone (travel deadzone : Interval) (v1 v2 : Q) :
  nested travel deadzone ->
  (v1 <= v2)%Q ->
  exists p1 p2,
    calc_f travel deadzone v1 = Ok p1 /\
    calc_f travel deadzone v2 = Ok p2 /\
    (p1 <= p2)%Q.
Proof.
  intros _ Hv. apply calc_f_monotone_any. exact Hv.
Qed.

Lemma calc_f_monotone_witness :
  exists p1 p2,
    calc_f (mkInterval 0 10) (mkInterval 4 6) 1 = Ok p1 /\
    calc_f (mkInterval 0 10) (mkInterval 4 6) 7 = Ok p2 /\
    (p1 <= p2)%Q.
Proof.
  apply (calc_f_monotone (mkInterval 0 10) (mkInterval 4 6) 1 7).
  - unfold nested, Qle; simpl. lia.
  - unfold Qle; simpl. lia.
Defined.

(** ** The action translator: buttons *)

Lemma bit_of_shift (m k : Z) :
  0 <= k -> Z.land (Z.shiftr m k) 1 = Z.b2z (Z.testbit m k).
Proof.
  intro Hk.
  change 1 with (Z.ones 1).
  rewrite Z.land_ones by lia.
  rewrite Z.shiftr_div_pow2 by exact Hk.
  rewrite Z.testbit_spec' by exact Hk.
  reflexivity.
Qed.

(** One turn of the loop of [_keys] appends what the entry contributes. *)
Lemma keys_step (old new : Z) (acc : list string) (k : Z) (tp val : string) :
  0 <= k ->
  (let newVal := Z.land (Z.shiftr new k) 1 in
   if negb (newVal =? Z.land (Z.shiftr old k) 1) then
     acc ++ [String.append tp (if negb (newVal =? 0) then "down"%string
                               else "up"%string); val]
   else acc)
  = acc ++ edge_action old new (k, (tp, val)).
Proof.
  intro Hk. cbv zeta. rewrite !bit_of_shift by exact Hk.
  unfold edge_action.
  destruct (Z.testbit old k), (Z.testbit new k); simpl;
    rewrite ?app_nil_r; reflexivity.
Qed.

Lemma keys_fold (old new : Z) (table : list (Z * (string * string))) :
  Forall (fun entry => 0 <= fst entry) table ->
  forall acc,
    fold_left
      (fun actions '(k, (tp, val)) =>
         let newVal := Z.land (Z.shiftr new k) 1 in
         if negb (newVal =? Z.land (Z.shiftr old k) 1) then
           actions ++ [String.append tp (if negb (newVal =? 0) then "down"%string
                                         else "up"%string); val]
         else actions)
      table acc
    = acc ++ flat_map (edge_action old new) table.
Proof.
  induction 1 as [|[k [tp val]] table Hk _ IH]; intro acc; simpl.
  - now rewrite app_nil_r.
  - rewrite IH, app_assoc. f_equal.
    exact (keys_step old new acc k tp val Hk).
Qed.

Lemma BTN_ASSOC_bits : Forall (fun entry => 0 <= fst entry) _BTN_ASSOC.
Proof. unfold _BTN_ASSOC. repeat constructor; simpl; lia. Qed.

(** C3: for every entry of the association table, [_keys] emits the press
    action of its symbol exactly on a 0-to-1 transition of its bit between
    the stored mask and the new one, the release action exactly on a
    1-to-0 transition and nothing when the bit is unchanged, entry after
    entry in the order of the table; the stored mask is then the new mask,
    whatever its other bits.  With the masks 0x00, 0x40, 0x40, 0x00 in a
    row the actions are ["mousedown", "1"], none, ["mouseup", "1"]. *)
Theorem keys_edge_detection :
  (forall (jm : JoyMouse) (btnMask : Z),
     fst (_keys jm btnMask)
     = flat_map (edge_action (_old_btn_mask jm) btnMask) _BTN_ASSOC /\
     _old_btn_mask (snd (_keys jm btnMask)) = btnMask /\
     screen_size (snd (_keys jm btnMask)) = screen_size jm /\
     mode (snd (_keys jm btnMask)) = mode jm) /\
  (forall (size : Z * Z) (m : Z),
     let jm0 := mkJoyMouse size m 0x00 in
     let (a1, jm1) := _keys jm0 0x40 in
     let (a2, jm2) := _keys jm1 0x40 in
     let (a3, jm3) := _keys jm2 0x00 in
     a1 = ["mousedown"; "1"]%string /\ a2 = [] /\
     a3 = ["mouseup"; "1"]%string /\ _old_btn_mask jm3 = 0x00).
Proof.
  split.
  - intros jm btnMask. unfold _keys.
    cbn [fst snd _old_btn_mask screen_size mode].
    rewrite (keys_fold _ _ _ BTN_ASSOC_bits). auto.
  - intros size m. vm_compute. auto.
Qed.

(** ** The action translator: mouse movement *)

(** C5: in relative mode each coordinate is multiplied by 10, cubed and
    truncated to an integer, and a relative-move action with the two
    integers is emitted if and only if one of them is not zero; (0.0, 0.0)
    gives no action and (0.5, 0.0) gives the relative move (125, 0). *)
Theorem mouse_relative (jm : JoyMouse) (xPos yPos : Q) :
  mode jm = RELATIVE_MODE ->
  let paramX := Py.int ((xPos * 10) ^ 3)%Q in
  let paramY := Py.int ((yPos * 10) ^ 3)%Q in
  (paramX = 0 /\ paramY = 0 -> _mouse jm xPos yPos = []) /\
  (paramX <> 0 \/ paramY <> 0 ->
   _mouse jm xPos yPos
   = ["mousemove_relative"; "--"; Py.str paramX; Py.str paramY]%string) /\
  _mouse jm 0 0 = [] /\
  _mouse jm (1 # 2) 0 = ["mousemove_relative"; "--"; "125"; "0"]%string.
Proof.
  intros Hm paramX paramY.
  assert (E : forall x y,
             _mouse jm x y
             = if negb ((Py.int ((x * 10) ^ 3)%Q =? Py.int ((y * 10) ^ 3)%Q)
                        && (Py.int ((y * 10) ^ 3)%Q =? 0))
               then ["mousemove_relative"; "--"; Py.str (Py.int ((x * 10) ^ 3)%Q);
                     Py.str (Py.int ((y * 10) ^ 3)%Q)]%string
               else []).
  { intros x y. unfold _mouse. rewrite Hm. reflexivity. }
  repeat split.
  - intros [Hx Hy]. rewrite E. fold paramX paramY. rewrite Hx, Hy. reflexivity.
  - intros H. rewrite E. fold paramX paramY.
    destruct (paramX =? paramY) eqn:Exy; [|reflexivity].
    destruct (paramY =? 0) eqn:Ey; [|reflexivity].
    apply Z.eqb_eq in Exy, Ey. exfalso. lia.
  - rewrite E. reflexivity.
  - rewrite E. reflexivity.
Qed.

Lemma mouse_relative_witness :
  _mouse (mkJoyMouse (1920, 1080) RELATIVE_MODE 0) (1 # 2) 0
  = ["mousemove_relative"; "--"; "125"; "0"]%string.
Proof.
  pose proof (mouse_relative (mkJoyMouse (1920, 1080) RELATIVE_MODE 0)
                (1 # 2) 0 eq_refl) as H.
  cbv zeta in H. destruct H as (_ & H & _).
  apply H. left. vm_compute. discriminate.
Defined.

(** C6 fails on the code: in absolute mode the command word of the action
    is the empty string, the parameters are the truncated positions
    themselves, whatever the screen size, and a position that truncates to
    (0, 0) gives no action at all; so for (1, -1) and for (0.5, 0.5). *)
Theorem mouse_absolute_not_scaled (size : Z * Z) (old : Z) :
  (forall xPos yPos : Q,
     _mouse (mkJoyMouse size ABSOLUTE_MODE old) xPos yPos
     = if (Py.int xPos =? 0) && (Py.int yPos =? 0) then []
       else [EmptyString; "--"; Py.str (Py.int xPos);
             Py.str (Py.int yPos)]%string) /\
  _mouse (mkJoyMouse size ABSOLUTE_MODE old) 1 (-1)
  = [EmptyString; "--"; "1"; "-1"]%string /\
  _mouse (mkJoyMouse size ABSOLUTE_MODE old) (1 # 2) (1 # 2) = [].
Proof.
  split; [|split; reflexivity].
  intros xPos yPos. unfold _mouse. cbn [mode ABSOLUTE_MODE RELATIVE_MODE Z.eqb].
  destruct (Py.int xPos =? Py.int yPos) eqn:Exy;
    destruct (Py.int yPos =? 0) eqn:Ey; cbn [andb negb].
  - apply Z.eqb_eq in Exy, Ey. rewrite Exy, Ey. reflexivity.
  - rewrite andb_false_r. reflexivity.
  - apply Z.eqb_eq in Ey. apply Z.eqb_neq in Exy.
    destruct (Py.int xPos =? 0) eqn:Ex; [|reflexivity].
    apply Z.eqb_eq in Ex. lia.
  - rewrite andb_false_r. reflexivity.
Qed.

(** ** Stepping through computations *)

Lemma bind_raise {A B : Type} (m : M A) (k : A -> M B) (w w' : World) (e : exn) :
  m w = (Raise e, w') -> bind m k w = (Raise e, w').
Proof. intro E. unfold bind. now rewrite E. Qed.

Lemma bytes_eqb_eq (a b : list byte) : bytes_eqb a b = true <-> a = b.
Proof.
  revert b. induction a as [|x a IH]; intros [|y b]; simpl;
    try (split; [discriminate|discriminate]); [tauto|].
  rewrite andb_true_iff, IH. split.
  - intros [H ->]. apply Byte.byte_dec_bl in H. now subst.
  - intros [= -> ->]. split; [now apply Byte.byte_dec_lb|reflexivity].
Qed.

Section JoyFacts.

Variable getRbyADC : Q -> Q.
Variable float : string -> option Q.
Variable str_float : Q -> string.

(** ** The handshake *)

Lemma Joy_init_handshake (port : Serial) (fs : string -> option string)
    (config : option string) :
  Joy_init getRbyADC float str_float config (fresh port fs)
  = if negb (bytes_eqb (firstn 1 (rx port)) _PROTOCOL_VERSION) then
      (Raise (RuntimeError "Joy Protocol error"),
       after_handshake port fs config)
    else
      try_except (load_config float)
        (fun e => match e with
                  | FileNotFoundError => Some (calibrate getRbyADC str_float 500)
                  | ValueError => Some (calibrate getRbyADC str_float 500)
                  | _ => None
                  end)
        (after_handshake port fs config).
Proof.
  unfold Joy_init, bind, modify, print, print_end, arduino_read,
    fresh, with_self, raise, after_handshake, SerialOps.read.
  cbn -[firstn skipn bytes_eqb].
  destruct (bytes_eqb (firstn 1 (rx port)) _PROTOCOL_VERSION); reflexivity.
Qed.

(** C8: when the first byte read from the peer is not the marker ['b'],
    construction raises the protocol error (a RuntimeError with the text
    "Joy Protocol error"); by then nothing was written to the transport
    (no sample request), a single read was made, nothing catches the error
    and no second attempt follows; [JoyMouse] fails the same way. *)
Theorem handshake_mismatch (port : Serial) (fs : string -> option string)
    (config : option string) :
  firstn 1 (rx port) <> _PROTOCOL_VERSION ->
  exists w',
    Joy_init getRbyADC float str_float config (fresh port fs)
    = (Raise (RuntimeError "Joy Protocol error"), w') /\
    tx (arduino (self w')) = tx port /\
    rx (arduino (self w')) = skipn 1 (rx port) /\
    files w' = fs /\
    calls w' = [] /\
    (forall (m : Z) (size : option (Z * Z)),
       JoyMouse_init getRbyADC float str_float config m size (fresh port fs)
       = (Raise (RuntimeError "Joy Protocol error"), w')).
Proof.
  intro H. exists (after_handshake port fs config).
  assert (E : Joy_init getRbyADC float str_float config (fresh port fs)
              = (Raise (RuntimeError "Joy Protocol error"),
                 after_handshake port fs config)).
  { rewrite Joy_init_handshake.
    destruct (bytes_eqb (firstn 1 (rx port)) _PROTOCOL_VERSION) eqn:B;
      [|reflexivity].
    apply bytes_eqb_eq in B. contradiction. }
  repeat split; try exact E.
  intros m size. unfold JoyMouse_init.
  now rewrite (bind_raise _ _ _ _ _ E).
Qed.

(** ** Construction without a calibration file *)

Lemma load_config_no_file (w : World) :
  config_file (self w) = None ->
  load_config float w
  = (Ok tt, mkWorld (self w) (files w)
              (stdout w ++ ["Load config..." ++ String "010"%char EmptyString]%string)
              (calls w)).
Proof.
  intro H. unfold load_config, bind, print, print_end, modify, gets, ret.
  simpl. rewrite H. reflexivity.
Qed.

(** C10: constructed without a calibration-file path, [Joy] neither loads
    a configuration nor calibrates: [load_config] returns at once without
    raising, no request is written to the port (so [calibrate] did not
    run), the center and the four intervals stay [None], and a later
    [get_data] meets the unset attributes. *)
Theorem no_config_file_leaves_calibration_unset (port : Serial)
    (fs : string -> option string) (rest : list byte) :
  rx port = "b"%byte :: rest ->
  exists w',
    Joy_init getRbyADC float str_float None (fresh port fs) = (Ok tt, w') /\
    self w' = mkJoy None (mkSerial rest (tx port)) None None None None None /\
    files w' = fs /\
    stdout w' = ["Wait..." ++ String "010"%char EmptyString;
                 "Load config..." ++ String "010"%char EmptyString]%string /\
    (forall w, config_file (self w) = None ->
               fst (load_config float w) = Ok tt /\ self (snd (load_config float w)) = self w) /\
    ((7 <= List.length rest)%nat ->
     fst (get_data getRbyADC w') = Raise AttributeError).
Proof.
  intro Hrx.
  exists (mkWorld
            (mkJoy None (mkSerial rest (tx port)) None None None None None) fs
            ["Wait..." ++ String "010"%char EmptyString;
             "Load config..." ++ String "010"%char EmptyString]%string []).
  split.
  { rewrite Joy_init_handshake. unfold after_handshake. rewrite Hrx. simpl.
    unfold try_except. rewrite load_config_no_file by reflexivity.
    reflexivity. }
  simpl. split; [reflexivity|]. split; [reflexivity|]. split; [reflexivity|].
  split; [intros w H; split|].
  - now rewrite (load_config_no_file w).
  - now rewrite (load_config_no_file w).
  - intros Hlen.
    destruct rest as [|a [|b [|c [|d [|e [|f [|g t]]]]]]];
      simpl in Hlen; try lia.
    reflexivity.
Qed.

End JoyFacts.

(** ** Calibration with fewer than a hundred samples *)

Lemma range_pos (count : Z) :
  0 < count -> exists l, Py.range count = 0 :: l.
Proof.
  intro H. unfold Py.range.
  destruct (Z.to_nat count) as [|n] eqn:E; [lia|].
  simpl. eexists. reflexivity.
Qed.

Lemma progress_small (i count : Z) (w : World) :
  0 <= count < 100 -> progress i count w = (Raise ZeroDivisionError, w).
Proof.
  intro H. unfold progress, bind, lift, Py.floordiv, Py.mod_. simpl.
  rewrite (Z.div_small count 100 H). reflexivity.
Qed.

Section CalibrateFacts.

Variable getRbyADC : Q -> Q.
Variable str_float : Q -> string.

(** C2 fails on the code: with a count from 1 to 99 the first turn of the
    first sampling loop evaluates [0 % (count // 100)], a modulus by zero,
    and [calibrate] raises ZeroDivisionError; nothing is saved. *)
Theorem calibrate_small_count_raises (count : Z) (w : World)
    (reply1 reply2 rest : list byte) :
  0 < count < 100 ->
  List.length reply1 = 7%nat ->
  List.length reply2 = 7%nat ->
  rx (arduino (self w)) = (reply1 ++ reply2 ++ rest)%list ->
  exists w',
    calibrate getRbyADC str_float count w = (Raise ZeroDivisionError, w') /\
    files w' = files w /\
    rx (arduino (self w')) = rest.
Proof.
  intros Hc H1 H2 Hrx.
  destruct reply1 as [|a1 [|a2 [|a3 [|a4 [|a5 [|a6 [|a7 [|? ?]]]]]]]];
    try discriminate H1.
  destruct reply2 as [|b1 [|b2 [|b3 [|b4 [|b5 [|b6 [|b7 [|? ?]]]]]]]];
    try discriminate H2.
  destruct (range_pos count) as [l Hl]; [lia|].
  unfold calibrate. rewrite Hl.
  destruct w as [[cfg [rxw txw] c cx cy x y] fs out cl].
  simpl in Hrx. subst rxw.
  cbv [bind print print_end modify _get_raw_data arduino_write
       arduino_read lift assign with_self extend_attr the_interval
       center_update set_arduino set_interval set_center get_interval
       SerialOps.read SerialOps.write firstn skipn app Struct.unpack_FMT
       Struct.calcsize_FMT Struct.pack_B_15 for_ nth_error
       self arduino rx tx _center files stdout calls config_file
       _center_x_interval _center_y_interval _x_interval _y_interval].
  rewrite progress_small by lia.
  eexists. split; [reflexivity|]. split; reflexivity.
Qed.

End CalibrateFacts.

(** ** What calibration can raise *)

























(** ** Loading a missing or malformed profile *)



Lemma nth_line_0 (content : string) :
  nth_line 0 content = fst (Text.readline content).
Proof. reflexivity. Qed.

Lemma nth_line_S (n : nat) (content : string) :
  nth_line (S n) content = nth_line n (snd (Text.readline content)).
Proof. unfold nth_line. now rewrite Nat.iter_succ_r. Qed.




Section StartupFacts.

Variable getRbyADC : Q -> Q.
Variable float : string -> option Q.
Variable str_float : Q -> string.


End StartupFacts.

(** ** The statements at sample inputs *)


(** Without a file and with a peer that answers every request, startup
    ends normally and the profile is written. *)
Example startup_without_file :
  let (r, w') :=
    Joy_init same_value integer_float plain_str (Some "joy.conf"%string)
      (fresh (mkSerial ("b"%byte :: replies 1001) []) no_files) in
  r = Ok tt /\
  rx (arduino (self w')) = [] /\
  _center (self w') = Some [inject_Z 256000 / inject_Z 500; inject_Z 248000 / inject_Z 500]%Q /\
  _x_interval (self w') = Some (mkInterval (inject_Z 512) (inject_Z 512)) /\
  files w' "joy.conf"%string
  = Some ("512 496" ++ String "010"%char
          ("512 512" ++ String "010"%char
           ("496 496" ++ String "010"%char
            ("512 512" ++ String "010"%char
             ("496 496" ++ String "010"%char EmptyString)))))%string.
Proof. vm_compute. repeat split. Qed.

Lemma calibrate_small_count_raises_witness :
  exists w',
    calibrate same_value plain_str 50
      (fresh (mkSerial (replies 3) []) no_files)
    = (Raise ZeroDivisionError, w') /\
    files w' = no_files /\
    rx (arduino (self w')) = sample_reply.
Proof.
  apply (calibrate_small_count_raises same_value plain_str 50
           (fresh (mkSerial (replies 3) []) no_files)
           sample_reply sample_reply sample_reply).
  - lia.
  - reflexivity.
  - reflexivity.
  - reflexivity.
Defined.

Lemma handshake_mismatch_witness :
  exists w',
    Joy_init same_value integer_float plain_str None
      (fresh (mkSerial ("a"%byte :: sample_reply) []) no_files)
    = (Raise (RuntimeError "Joy Protocol error"), w') /\
    tx (arduino (self w')) = [] /\
    rx (arduino (self w')) = sample_reply /\
    files w' = no_files /\
    calls w' = [] /\
    (forall (m : Z) (size : option (Z * Z)),
       JoyMouse_init same_value integer_float plain_str None m size
         (fresh (mkSerial ("a"%byte :: sample_reply) []) no_files)
       = (Raise (RuntimeError "Joy Protocol error"), w')).
Proof.
  apply (handshake_mismatch same_value integer_float plain_str
           (mkSerial ("a"%byte :: sample_reply) []) no_files None).
  simpl. discriminate.
Defined.

Lemma no_config_file_leaves_calibration_unset_witness :
  exists w',
    Joy_init same_value integer_float plain_str None
      (fresh (mkSerial ("b"%byte :: sample_reply) []) no_files)
    = (Ok tt, w') /\
    self w' = mkJoy None (mkSerial sample_reply []) None None None None None /\
    fst (get_data same_value w') = Raise AttributeError.
Proof.
  destruct (no_config_file_leaves_calibration_unset same_value integer_float
              plain_str (mkSerial ("b"%byte :: sample_reply) []) no_files
              sample_reply eq_refl) as (w' & E & Hs & _ & _ & _ & Hg).
  exists w'. split; [exact E|]. split; [exact Hs|].
  apply Hg. simpl. lia.
Defined.

(** * Further properties of the code *)

(** ** Where [calc_f] takes its extreme values and its zero *)




(** ** When the edge detector stays silent *)

Lemma keys_actions (jm : JoyMouse) (btnMask : Z) :
  fst (_keys jm btnMask)
  = flat_map (edge_action (_old_btn_mask jm) btnMask) _BTN_ASSOC.
Proof.
  unfold _keys. cbn [fst].
  now rewrite (keys_fold _ _ _ BTN_ASSOC_bits).
Qed.

Lemma flat_map_nil {A B : Type} (f : A -> list B) (l : list A) :
  flat_map f l = [] <-> forall x, In x l -> f x = [].
Proof.
  induction l as [|a l IH]; simpl.
  - split; [intros _ x []|reflexivity].
  - split.
    + intros H x [<-|Hx].
      * now apply app_eq_nil in H.
      * apply app_eq_nil in H. now apply IH.
    + intro H. rewrite (H a) by now left. simpl. apply IH.
      intros x Hx. apply H. now right.
Qed.

Lemma edge_action_nil (old new : Z) (entry : Z * (string * string)) :
  edge_action old new entry = [] <->
  Z.testbit old (fst entry) = Z.testbit new (fst entry).
Proof.
  destruct entry as [k [tp val]]. unfold edge_action. cbn [fst].
  destruct (Z.testbit old k), (Z.testbit new k); split; intro H;
    try reflexivity; discriminate H.
Qed.

Lemma keys_silent_when (jm : JoyMouse) (btnMask : Z) :
  mapped_bits_equal (_old_btn_mask jm) btnMask ->
  _keys jm btnMask = ([], mkJoyMouse (screen_size jm) (mode jm) btnMask).
Proof.
  intro H.
  assert (E : fst (_keys jm btnMask) = []).
  { rewrite keys_actions, flat_map_nil. intros e He.
    apply edge_action_nil, H, He. }
  unfold _keys in *. cbn [fst] in E. now rewrite E.
Qed.

(** X3: [_keys] returns no action exactly when the new mask and the
    stored one agree on the six mapped bits (0, 1, 2, 3, 5, 6); so a mask
    that is processed twice in a row gives nothing the second time. *)
Theorem keys_silent_iff (jm : JoyMouse) (btnMask : Z) :
  (fst (_keys jm btnMask) = [] <->
   mapped_bits_equal (_old_btn_mask jm) btnMask) /\
  fst (_keys (snd (_keys jm btnMask)) btnMask) = [].
Proof.
  assert (H : forall j m, fst (_keys j m) = [] <->
                          mapped_bits_equal (_old_btn_mask j) m).
  { intros j m. rewrite keys_actions, flat_map_nil. unfold mapped_bits_equal.
    split; intros H e He; apply edge_action_nil, H, He. }
  split; [apply H|].
  apply H. intros e _. reflexivity.
Qed.

(** X4: bits 4 and 7 of the mask are not in the table: a change of the
    mask that leaves every other bit as it was gives no action, and the
    new mask is stored all the same. *)
Theorem keys_ignore_unmapped (jm : JoyMouse) (btnMask : Z) :
  (forall k, k <> 4 -> k <> 7 ->
             Z.testbit (_old_btn_mask jm) k = Z.testbit btnMask k) ->
  _keys jm btnMask = ([], mkJoyMouse (screen_size jm) (mode jm) btnMask).
Proof.
  intro H. apply keys_silent_when. intros e He.
  unfold _BTN_ASSOC in He; simpl in He.
  repeat (destruct He as [<-|He]; [apply H; cbn [fst]; lia|]).
  destruct He.
Qed.

Lemma keys_ignore_unmapped_witness :
  _keys (mkJoyMouse (1920, 1080) RELATIVE_MODE 0x01) 0x91
  = ([], mkJoyMouse (1920, 1080) RELATIVE_MODE 0x91).
Proof.
  apply (keys_ignore_unmapped (mkJoyMouse (1920, 1080) RELATIVE_MODE 0x01) 0x91).
  intros k H4 H7. cbn [_old_btn_mask].
  destruct (Z.eq_dec k 0) as [->|H0]; [reflexivity|].
  destruct k as [|p|p]; [contradiction| |reflexivity].
  destruct p as [[[[p|p|]|[p|p|]|]|[[p|p|]|[p|p|]|]|]|[[[p|p|]|[p|p|]|]|[[p|p|]|[p|p|]|]|]|];
    try reflexivity; try contradiction; try (destruct p; reflexivity).
Defined.

(** ** The size of a relative movement *)

Lemma int_zero (q : Q) : (-1 < q)%Q -> (q < 1)%Q -> Py.int q = 0.
Proof.
  destruct q as [n d]. unfold Qlt, Py.int; simpl. intros H1 H2.
  destruct (Z.le_gt_cases 0 n) as [Hn|Hn].
  - apply Z.quot_small. lia.
  - replace n with (- (- n)) by lia. rewrite Z.quot_opp_l by lia.
    rewrite Z.quot_small by lia. reflexivity.
Qed.

Lemma int_bounds (q : Q) (b : Z) :
  0 <= b -> (- inject_Z b <= q)%Q -> (q <= inject_Z b)%Q ->
  - b <= Py.int q <= b.
Proof.
  destruct q as [n d]. unfold Qle, Py.int; simpl. intros Hb H1 H2.
  destruct (Z.le_gt_cases 0 n) as [Hn|Hn].
  - rewrite Z.quot_div_nonneg by lia. split.
    + pose proof (Z.div_pos n (Z.pos d) Hn ltac:(lia)). lia.
    + apply Z.div_le_upper_bound; lia.
  - replace n with (- (- n)) by lia. rewrite Z.quot_opp_l by lia.
    rewrite Z.quot_div_nonneg by lia.
    assert (0 <= - n / Z.pos d) by (apply Z.div_pos; lia).
    assert (- n / Z.pos d <= b) by (apply Z.div_le_upper_bound; lia).
    lia.
Qed.

Lemma Qsquare_nonneg (a : Q) : (0 <= a * a)%Q.
Proof.
  destruct (Qlt_le_dec a 0) as [H|H].
  - assert (E : (a * a == (- a) * (- a))%Q) by ring.
    rewrite E. apply Qmult_le_0_compat; lra.
  - apply Qmult_le_0_compat; exact H.
Qed.

Lemma cube (q : Q) : (q ^ 3 == q * q * q)%Q.
Proof. simpl. ring. Qed.

Lemma mouse_relative_eq (jm : JoyMouse) (xPos yPos : Q) :
  mode jm = RELATIVE_MODE ->
  _mouse jm xPos yPos
  = if negb ((Py.int ((xPos * 10) ^ 3)%Q =? Py.int ((yPos * 10) ^ 3)%Q)
             && (Py.int ((yPos * 10) ^ 3)%Q =? 0))
    then ["mousemove_relative"; "--"; Py.str (Py.int ((xPos * 10) ^ 3)%Q);
          Py.str (Py.int ((yPos * 10) ^ 3)%Q)]%string
    else [].
Proof. intro Hm. unfold _mouse. rewrite Hm. reflexivity. Qed.

(** X5: in relative mode a position closer than 0.1 to the center on both
    axes moves nothing: its cube truncates to zero. *)
Theorem mouse_relative_dead_band (jm : JoyMouse) (xPos yPos : Q) :
  mode jm = RELATIVE_MODE ->
  (- (1 # 10) < xPos)%Q -> (xPos < 1 # 10)%Q ->
  (- (1 # 10) < yPos)%Q -> (yPos < 1 # 10)%Q ->
  _mouse jm xPos yPos = [].
Proof.
  intros Hm X1 X2 Y1 Y2. rewrite (mouse_relative_eq jm xPos yPos Hm).
  assert (Z0 : forall p, (- (1 # 10) < p)%Q -> (p < 1 # 10)%Q ->
                         Py.int ((p * 10) ^ 3)%Q = 0).
  { intros p P1 P2. apply int_zero; rewrite cube.
    - assert (T : (-1 < p * 10)%Q) by lra.
      assert (T' : (p * 10 < 1)%Q) by lra.
      nra.
    - assert (T : (-1 < p * 10)%Q) by lra.
      assert (T' : (p * 10 < 1)%Q) by lra.
      nra. }
  rewrite (Z0 xPos X1 X2), (Z0 yPos Y1 Y2). reflexivity.
Qed.

Lemma mouse_relative_dead_band_witness :
  _mouse (mkJoyMouse (1920, 1080) RELATIVE_MODE 0) (9 # 100) (- (1 # 20)) = [].
Proof.
  apply (mouse_relative_dead_band (mkJoyMouse (1920, 1080) RELATIVE_MODE 0)
           (9 # 100) (- (1 # 20)));
    [reflexivity | | | | ]; unfold Qlt; simpl; lia.
Defined.

(** X6: in relative mode a position of [-1, 1] on both axes gives either
    no action or a relative move whose two parameters lie between -1000
    and 1000. *)
Theorem mouse_relative_bounded (jm : JoyMouse) (xPos yPos : Q) :
  mode jm = RELATIVE_MODE ->
  (-1 <= xPos)%Q -> (xPos <= 1)%Q -> (-1 <= yPos)%Q -> (yPos <= 1)%Q ->
  _mouse jm xPos yPos = [] \/
  exists paramX paramY,
    -1000 <= paramX <= 1000 /\ -1000 <= paramY <= 1000 /\
    _mouse jm xPos yPos
    = ["mousemove_relative"; "--"; Py.str paramX; Py.str paramY]%string.
Proof.
  intros Hm X1 X2 Y1 Y2. rewrite (mouse_relative_eq jm xPos yPos Hm).
  assert (B : forall p, (-1 <= p)%Q -> (p <= 1)%Q ->
                        -1000 <= Py.int ((p * 10) ^ 3)%Q <= 1000).
  { intros p P1 P2. apply (int_bounds _ 1000); [lia| |]; rewrite cube.
    - unfold inject_Z.
      assert (T : (-10 <= p * 10)%Q) by lra.
      revert T. generalize (p * 10)%Q. intros t T.
      assert (P : (0 <= (t + 10) * ((t - 5) * (t - 5) + 75))%Q).
      { apply Qmult_le_0_compat; [lra|].
        pose proof (Qsquare_nonneg (t - 5)). lra. }
      assert (I : ((t + 10) * ((t - 5) * (t - 5) + 75) == t * t * t + 1000)%Q)
        by ring.
      rewrite I in P. lra.
    - unfold inject_Z.
      assert (T : (p * 10 <= 10)%Q) by lra.
      revert T. generalize (p * 10)%Q. intros t T.
      assert (P : (0 <= (10 - t) * ((t + 5) * (t + 5) + 75))%Q).
      { apply Qmult_le_0_compat; [lra|].
        pose proof (Qsquare_nonneg (t + 5)). lra. }
      assert (I : ((10 - t) * ((t + 5) * (t + 5) + 75) == 1000 - t * t * t)%Q)
        by ring.
      rewrite I in P. lra. }
  destruct (negb _); [right|left; reflexivity].
  exists (Py.int ((xPos * 10) ^ 3)%Q), (Py.int ((yPos * 10) ^ 3)%Q).
  split; [apply B; assumption|]. split; [apply B; assumption|reflexivity].
Qed.

Lemma mouse_relative_bounded_witness :
  _mouse (mkJoyMouse (1920, 1080) RELATIVE_MODE 0) 1 (-1) = [] \/
  exists paramX paramY,
    -1000 <= paramX <= 1000 /\ -1000 <= paramY <= 1000 /\
    _mouse (mkJoyMouse (1920, 1080) RELATIVE_MODE 0) 1 (-1)
    = ["mousemove_relative"; "--"; Py.str paramX; Py.str paramY]%string.
Proof.
  apply (mouse_relative_bounded (mkJoyMouse (1920, 1080) RELATIVE_MODE 0) 1 (-1));
    [reflexivity | | | | ]; unfold Qle; simpl; lia.
Defined.

(** ** One sample round trip *)

Lemma u8_range (b : byte) : 0 <= Struct.u8 b <= 255.
Proof.
  unfold Struct.u8. pose proof (Byte.to_N_bounded b) as H. lia.
Qed.

Lemma i8_range (b : byte) : -128 <= Struct.i8 b <= 127.
Proof.
  unfold Struct.i8. pose proof (u8_range b). cbv zeta.
  destruct (Struct.u8 b <? 128) eqn:E;
    [apply Z.ltb_lt in E | apply Z.ltb_ge in E]; lia.
Qed.

Lemma i16_range (hi lo : byte) : -32768 <= Struct.i16 hi lo <= 32767.
Proof.
  unfold Struct.i16. pose proof (u8_range hi). pose proof (u8_range lo).
  cbv zeta.
  destruct (Struct.u8 hi * 256 + Struct.u8 lo <? 32768) eqn:E;
    [apply Z.ltb_lt in E | apply Z.ltb_ge in E]; lia.
Qed.

Lemma get_raw_data_frame (w : World) (a b c d e f g : byte) (rest : list byte) :
  rx (arduino (self w)) = a :: b :: c :: d :: e :: f :: g :: rest ->
  _get_raw_data w
  = (Ok (Struct.i16 a b, Struct.i16 c d, Struct.i8 e, Struct.i8 f, Struct.u8 g),
     after_request 7 w).
Proof.
  intro H. unfold _get_raw_data, bind, arduino_write, arduino_read, modify,
    lift, after_request, with_self, SerialOps.read, SerialOps.write,
    Struct.calcsize_FMT.
  cbn [self arduino rx tx set_arduino fst snd]. rewrite H. reflexivity.
Qed.

(** X7: when the peer has a full reply of seven bytes ready,
    [_get_raw_data] writes the single request byte 15, consumes exactly
    those seven bytes and returns the decoded sample, whose fields lie in
    the ranges of two signed 16-bit, two signed 8-bit and one unsigned
    8-bit number. *)
Theorem get_raw_data_reply (w : World) (frame rest : list byte) :
  List.length frame = 7%nat ->
  rx (arduino (self w)) = (frame ++ rest)%list ->
  exists d,
    Struct.unpack_FMT frame = Ok d /\
    in_format d /\
    _get_raw_data w = (Ok d, after_request 7 w) /\
    rx (arduino (self (after_request 7 w))) = rest /\
    tx (arduino (self (after_request 7 w)))
    = (tx (arduino (self w)) ++ [x0f])%list.
Proof.
  intros Hlen Hrx.
  destruct frame as [|a [|b [|c [|d [|e [|f [|g [|? ?]]]]]]]];
    try discriminate Hlen.
  eexists. split; [reflexivity|]. split.
  - unfold in_format.
    pose proof (i16_range a b). pose proof (i16_range c d).
    pose proof (i8_range e). pose proof (i8_range f). pose proof (u8_range g).
    tauto.
  - split; [exact (get_raw_data_frame w a b c d e f g rest Hrx)|].
    unfold after_request. cbn [with_self self set_arduino arduino rx tx].
    rewrite Hrx. split; reflexivity.
Qed.

Lemma get_raw_data_reply_witness :
  exists d,
    Struct.unpack_FMT sample_reply = Ok d /\
    in_format d /\
    _get_raw_data (fresh (mkSerial (replies 2) []) no_files)
    = (Ok d, after_request 7 (fresh (mkSerial (replies 2) []) no_files)) /\
    rx (arduino (self (after_request 7
                         (fresh (mkSerial (replies 2) []) no_files))))
    = sample_reply /\
    tx (arduino (self (after_request 7
                         (fresh (mkSerial (replies 2) []) no_files))))
    = [x0f].
Proof.
  apply (get_raw_data_reply (fresh (mkSerial (replies 2) []) no_files)
           sample_reply sample_reply); reflexivity.
Defined.

(** X8: when fewer than seven bytes come back, [_get_raw_data] raises the
    unpacking error; the request byte was written and the bytes that did
    arrive are consumed. *)
Theorem get_raw_data_short (w : World) :
  (List.length (rx (arduino (self w))) < 7)%nat ->
  _get_raw_data w = (Raise StructError, after_request 7 w) /\
  rx (arduino (self (after_request 7 w))) = [] /\
  tx (arduino (self (after_request 7 w)))
  = (tx (arduino (self w)) ++ [x0f])%list.
Proof.
  intro H.
  unfold _get_raw_data, bind, arduino_write, arduino_read, modify,
    lift, after_request, with_self, SerialOps.read, SerialOps.write,
    Struct.calcsize_FMT.
  cbn [self arduino rx tx set_arduino fst snd].
  destruct (rx (arduino (self w)))
    as [|a [|b [|c [|d [|e [|f [|g t]]]]]]]; simpl in H; try lia;
    repeat split.
Qed.

Lemma get_raw_data_short_witness :
  _get_raw_data (fresh (mkSerial [x02; x00; x01] []) no_files)
  = (Raise StructError,
     after_request 7 (fresh (mkSerial [x02; x00; x01] []) no_files)) /\
  rx (arduino (self (after_request 7
                       (fresh (mkSerial [x02; x00; x01] []) no_files)))) = [] /\
  tx (arduino (self (after_request 7
                       (fresh (mkSerial [x02; x00; x01] []) no_files))))
  = [x0f].
Proof.
  apply (get_raw_data_short (fresh (mkSerial [x02; x00; x01] []) no_files)).
  simpl. lia.
Defined.

Lemma bind_returns {A B : Type} (m : M A) (k : A -> M B) (w w' : World) (a : A) :
  m w = (Ok a, w') -> bind m k w = k a w'.
Proof. intro E. unfold bind. now rewrite E. Qed.

(** ** Mapped samples *)

Lemma get_data_frame (getRbyADC : Q -> Q) (w : World)
    (a b c d e f g : byte) (rest : list byte) (xi cxi yi cyi : Interval) :
  _x_interval (self w) = Some xi ->
  _center_x_interval (self w) = Some cxi ->
  _y_interval (self w) = Some yi ->
  _center_y_interval (self w) = Some cyi ->
  rx (arduino (self w)) = a :: b :: c :: d :: e :: f :: g :: rest ->
  exists xPos yPos,
    calc_f xi cxi (getRbyADC (inject_Z (Struct.i16 a b))) = Ok xPos /\
    calc_f yi cyi (getRbyADC (inject_Z (Struct.i16 c d))) = Ok yPos /\
    get_data getRbyADC w = (Ok (xPos, yPos, Struct.u8 g), after_request 7 w).
Proof.
  intros Hx Hcx Hy Hcy Hrx.
  destruct (calc_f_range xi cxi (getRbyADC (inject_Z (Struct.i16 a b))))
    as (xPos & Ex & _).
  destruct (calc_f_range yi cyi (getRbyADC (inject_Z (Struct.i16 c d))))
    as (yPos & Ey & _).
  exists xPos, yPos. split; [exact Ex|]. split; [exact Ey|].
  unfold get_data.
  rewrite (bind_returns _ _ _ _ _ (get_raw_data_frame w a b c d e f g rest Hrx)).
  unfold bind, gets, lift, ret, after_request.
  cbn [with_self self set_arduino _x_interval _center_x_interval _y_interval
       _center_y_interval].
  rewrite Hx, Hcx, Hy, Hcy. cbn [calc_f_attr]. rewrite Ex, Ey. reflexivity.
Qed.

(** X9: once the four intervals are set and the peer has a full reply
    ready, [get_data] raises nothing: it returns two positions of [-1, 1]
    and a button mask of [0, 255], having sent one request and consumed
    the seven bytes of the reply. *)
Theorem get_data_in_range (getRbyADC : Q -> Q) (w : World)
    (frame rest : list byte) (xi cxi yi cyi : Interval) :
  _x_interval (self w) = Some xi ->
  _center_x_interval (self w) = Some cxi ->
  _y_interval (self w) = Some yi ->
  _center_y_interval (self w) = Some cyi ->
  List.length frame = 7%nat ->
  rx (arduino (self w)) = (frame ++ rest)%list ->
  exists xPos yPos btn_mask,
    get_data getRbyADC w = (Ok (xPos, yPos, btn_mask), after_request 7 w) /\
    (-1 <= xPos)%Q /\ (xPos <= 1)%Q /\ (-1 <= yPos)%Q /\ (yPos <= 1)%Q /\
    0 <= btn_mask <= 255.
Proof.
  intros Hx Hcx Hy Hcy Hlen Hrx.
  destruct frame as [|a [|b [|c [|d [|e [|f [|g [|? ?]]]]]]]];
    try discriminate Hlen.
  destruct (get_data_frame getRbyADC w a b c d e f g rest xi cxi yi cyi
              Hx Hcx Hy Hcy Hrx) as (xPos & yPos & Ex & Ey & E).
  exists xPos, yPos, (Struct.u8 g). split; [exact E|].
  destruct (calc_f_range xi cxi (getRbyADC (inject_Z (Struct.i16 a b))))
    as (p & Ep & R1 & R2).
  rewrite Ex in Ep. injection Ep as <-.
  destruct (calc_f_range yi cyi (getRbyADC (inject_Z (Struct.i16 c d))))
    as (q & Eq & R3 & R4).
  rewrite Ey in Eq. injection Eq as <-.
  pose proof (u8_range g). tauto.
Qed.

Lemma get_data_in_range_witness :
  exists xPos yPos btn_mask,
    get_data same_value (sample_calibrated (mkSerial pushed_reply []))
    = (Ok (xPos, yPos, btn_mask),
       after_request 7 (sample_calibrated (mkSerial pushed_reply []))) /\
    (-1 <= xPos)%Q /\ (xPos <= 1)%Q /\ (-1 <= yPos)%Q /\ (yPos <= 1)%Q /\
    0 <= btn_mask <= 255.
Proof.
  apply (get_data_in_range same_value
           (sample_calibrated (mkSerial pushed_reply [])) pushed_reply []
           (mkInterval 0 1023) (mkInterval 500 520)
           (mkInterval 0 1023) (mkInterval 490 500));
    reflexivity.
Defined.

(** ** One step of the driving loop *)

Lemma calc_f_dead_zone (t d : Interval) (v : Q) :
  (left t <= v)%Q -> (left d <= v)%Q -> (v < right d)%Q ->
  calc_f t d v = Ok 0%Q.
Proof.
  intros H1 H2 H3.
  destruct (calc_f_cases t d v)
    as [[? E]|[(? & ? & E)|[(? & ? & ? & E)|[(? & ? & ? & ? & E)|(? & ? & ? & ? & E)]]]];
    solve [exact E | exfalso; lra].
Qed.

Lemma mouse_at_rest (jm : JoyMouse) : _mouse jm 0 0 = [].
Proof. unfold _mouse. destruct (mode jm =? RELATIVE_MODE); reflexivity. Qed.

(** X10: a step whose sample lies in the dead zone on both axes and whose
    button mask agrees with the stored one on the mapped bits does nothing
    visible, in either mode: no command is run and nothing is printed;
    only the request went out, the reply was consumed and the mask was
    stored. *)
Theorem step_idle (getRbyADC : Q -> Q) (jm : JoyMouse) (w : World)
    (a b c d e f g : byte) (rest : list byte) (xi cxi yi cyi : Interval) :
  _x_interval (self w) = Some xi ->
  _center_x_interval (self w) = Some cxi ->
  _y_interval (self w) = Some yi ->
  _center_y_interval (self w) = Some cyi ->
  rx (arduino (self w)) = a :: b :: c :: d :: e :: f :: g :: rest ->
  (left xi <= getRbyADC (inject_Z (Struct.i16 a b)))%Q ->
  (left cxi <= getRbyADC (inject_Z (Struct.i16 a b)))%Q ->
  (getRbyADC (inject_Z (Struct.i16 a b)) < right cxi)%Q ->
  (left yi <= getRbyADC (inject_Z (Struct.i16 c d)))%Q ->
  (left cyi <= getRbyADC (inject_Z (Struct.i16 c d)))%Q ->
  (getRbyADC (inject_Z (Struct.i16 c d)) < right cyi)%Q ->
  mapped_bits_equal (_old_btn_mask jm) (Struct.u8 g) ->
  step getRbyADC jm w
  = (Ok (mkJoyMouse (screen_size jm) (mode jm) (Struct.u8 g)),
     after_request 7 w) /\
  calls (after_request 7 w) = calls w /\
  stdout (after_request 7 w) = stdout w.
Proof.
  intros Hx Hcx Hy Hcy Hrx X1 X2 X3 Y1 Y2 Y3 Hm.
  split; [|split; reflexivity].
  destruct (get_data_frame getRbyADC w a b c d e f g rest xi cxi yi cyi
              Hx Hcx Hy Hcy Hrx) as (xPos & yPos & Ex & Ey & E).
  rewrite (calc_f_dead_zone _ _ _ X1 X2 X3) in Ex. injection Ex as <-.
  rewrite (calc_f_dead_zone _ _ _ Y1 Y2 Y3) in Ey. injection Ey as <-.
  unfold step. rewrite (bind_returns _ _ _ _ _ E). cbv beta iota zeta.
  rewrite (keys_silent_when jm (Struct.u8 g) Hm), mouse_at_rest.
  reflexivity.
Qed.

Lemma step_idle_witness :
  step same_value (mkJoyMouse (1920, 1080) RELATIVE_MODE 0)
    (sample_calibrated (mkSerial sample_reply []))
  = (Ok (mkJoyMouse (1920, 1080) RELATIVE_MODE 0),
     after_request 7 (sample_calibrated (mkSerial sample_reply []))) /\
  calls (after_request 7 (sample_calibrated (mkSerial sample_reply []))) = [] /\
  stdout (after_request 7 (sample_calibrated (mkSerial sample_reply []))) = [].
Proof.
  apply (step_idle same_value (mkJoyMouse (1920, 1080) RELATIVE_MODE 0)
           (sample_calibrated (mkSerial sample_reply []))
           x02 x00 x01 xf0 x00 x00 x00 []
           (mkInterval 0 1023) (mkInterval 500 520)
           (mkInterval 0 1023) (mkInterval 490 500));
    try reflexivity;
    try (unfold Qle, Qlt; vm_compute; intro; discriminate).
  intros e _. reflexivity.
Defined.

(** X11: with the four intervals set and a full reply ready, a step
    returns normally with the mask of the sample stored, and runs at most
    one command: either nothing is run and nothing printed, or [xdotool]
    is run once with a non-empty action list, which is also printed as
    one line. *)
Theorem step_runs_at_most_one_command (getRbyADC : Q -> Q) (jm : JoyMouse)
    (w : World) (a b c d e f g : byte) (rest : list byte)
    (xi cxi yi cyi : Interval) :
  _x_interval (self w) = Some xi ->
  _center_x_interval (self w) = Some cxi ->
  _y_interval (self w) = Some yi ->
  _center_y_interval (self w) = Some cyi ->
  rx (arduino (self w)) = a :: b :: c :: d :: e :: f :: g :: rest ->
  exists w',
    step getRbyADC jm w
    = (Ok (mkJoyMouse (screen_size jm) (mode jm) (Struct.u8 g)), w') /\
    self w' = self (after_request 7 w) /\
    files w' = files w /\
    ((calls w' = calls w /\ stdout w' = stdout w) \/
     (exists actions,
        actions <> [] /\
        calls w' = (calls w ++ [("xdotool"%string :: actions)])%list /\
        stdout w'
        = (stdout w
           ++ [(String.concat " " actions
                ++ String "010"%char EmptyString)%string])%list)).
Proof.
  intros Hx Hcx Hy Hcy Hrx.
  destruct (get_data_frame getRbyADC w a b c d e f g rest xi cxi yi cyi
              Hx Hcx Hy Hcy Hrx) as (xPos & yPos & Ex & Ey & E).
  unfold step. rewrite (bind_returns _ _ _ _ _ E). cbv beta iota zeta.
  unfold _keys at 1. cbv beta iota zeta.
  match goal with
  | |- context [match ?l with [] => _ | _ :: _ => _ end] =>
      destruct l as [|x l'] eqn:El
  end.
  - eexists. split; [reflexivity|]. repeat split. left. split; reflexivity.
  - eexists. split; [reflexivity|]. repeat split. right.
    exists (x :: l'). split; [discriminate|]. split; reflexivity.
Qed.

Lemma step_runs_at_most_one_command_witness :
  exists w',
    step same_value (mkJoyMouse (1920, 1080) RELATIVE_MODE 0)
      (sample_calibrated (mkSerial pushed_reply []))
    = (Ok (mkJoyMouse (1920, 1080) RELATIVE_MODE 0x40), w') /\
    calls w' = [["xdotool"; "mousemove_relative"; "--"; "172"; "0";
                 "mousedown"; "1"]%string].
Proof.
  destruct (step_runs_at_most_one_command same_value
              (mkJoyMouse (1920, 1080) RELATIVE_MODE 0)
              (sample_calibrated (mkSerial pushed_reply []))
              x03 x20 x01 xf0 x00 x00 x40 []
              (mkInterval 0 1023) (mkInterval 500 520)
              (mkInterval 0 1023) (mkInterval 490 500)
              eq_refl eq_refl eq_refl eq_refl eq_refl)
    as (w' & E & _).
  exists w'. split; [exact E|].
  vm_compute in E. injection E as <-. reflexivity.
Defined.

(** ** Loading a well-formed profile *)

Lemma five_lines (content : string) :
  exists l1 f1 l2 f2 l3 f3 l4 f4 l5 f5,
    Text.readline content = (l1, f1) /\ Text.readline f1 = (l2, f2) /\
    Text.readline f2 = (l3, f3) /\ Text.readline f3 = (l4, f4) /\
    Text.readline f4 = (l5, f5) /\
    nth_line 0 content = l1 /\ nth_line 1 content = l2 /\
    nth_line 2 content = l3 /\ nth_line 3 content = l4 /\
    nth_line 4 content = l5.
Proof.
  destruct (Text.readline content) as [l1 f1] eqn:E1.
  destruct (Text.readline f1) as [l2 f2] eqn:E2.
  destruct (Text.readline f2) as [l3 f3] eqn:E3.
  destruct (Text.readline f3) as [l4 f4] eqn:E4.
  destruct (Text.readline f4) as [l5 f5] eqn:E5.
  exists l1, f1, l2, f2, l3, f3, l4, f4, l5, f5.
  split; [reflexivity|].
  repeat (split; [assumption|]).
  repeat split.
  - rewrite nth_line_0, E1; reflexivity.
  - rewrite nth_line_S, nth_line_0, E1; simpl; rewrite E2; reflexivity.
  - rewrite !nth_line_S, nth_line_0, E1; simpl; rewrite E2; simpl;
      rewrite E3; reflexivity.
  - rewrite !nth_line_S, nth_line_0, E1; simpl; rewrite E2; simpl;
      rewrite E3; simpl; rewrite E4; reflexivity.
  - rewrite !nth_line_S, nth_line_0, E1; simpl; rewrite E2; simpl;
      rewrite E3; simpl; rewrite E4; simpl; rewrite E5; reflexivity.
Qed.

Lemma load_config_profile (float : string -> option Q) (w : World)
    (path content : string) (c : list Q) (cx cy x y : Interval) :
  config_file (self w) = Some path ->
  files w path = Some content ->
  profile_of float content c cx cy x y ->
  load_config float w
  = (Ok tt,
     mkWorld
       (mkJoy (Some path) (arduino (self w)) (Some c) (Some cx) (Some cy)
          (Some x) (Some y))
       (files w)
       (stdout w ++ ["Load config..." ++ String "010"%char EmptyString]%string)
       (calls w)).
Proof.
  intros Hc Hf (P1 & P2 & P3 & P4 & P5).
  destruct (five_lines content)
    as (l1 & f1 & l2 & f2 & l3 & f3 & l4 & f4 & l5 & f5
        & E1 & E2 & E3 & E4 & E5 & L1 & L2 & L3 & L4 & L5).
  rewrite L1 in P1. rewrite L2 in P2. rewrite L3 in P3.
  rewrite L4 in P4. rewrite L5 in P5.
  destruct w as [[cfg port c0 cx0 cy0 x0 y0] fs out cl].
  simpl in Hc, Hf. subst cfg.
  unfold load_config, bind, print, print_end, modify, gets, open_rt, lift,
    assign, with_self.
  cbn [self files stdout calls config_file arduino _center _center_x_interval
       _center_y_interval _x_interval _y_interval set_center set_interval].
  rewrite Hf, E1, P1, E2, P2. cbn [Interval_of_args].
  rewrite E3, P3. cbn [Interval_of_args].
  rewrite E4, P4. cbn [Interval_of_args].
  rewrite E5, P5. cbn [Interval_of_args].
  destruct cx, cy, x, y. reflexivity.
Qed.

Lemma Joy_init_profile (getRbyADC : Q -> Q) (float : string -> option Q)
    (str_float : Q -> string) (port : Serial) (fs : string -> option string)
    (path content : string) (rest : list byte)
    (c : list Q) (cx cy x y : Interval) :
  rx port = "b"%byte :: rest ->
  fs path = Some content ->
  profile_of float content c cx cy x y ->
  exists w',
    Joy_init getRbyADC float str_float (Some path) (fresh port fs)
    = (Ok tt, w') /\
    self w'
    = mkJoy (Some path) (mkSerial rest (tx port)) (Some c) (Some cx) (Some cy)
        (Some x) (Some y) /\
    files w' = fs /\
    calls w' = [].
Proof.
  intros Hrx Hf Hp.
  rewrite Joy_init_handshake. rewrite Hrx.
  cbn [firstn bytes_eqb _PROTOCOL_VERSION].
  change (Byte.eqb "b" "b") with true. cbn [andb negb].
  unfold try_except.
  rewrite (load_config_profile float (after_handshake port fs (Some path))
             path content c cx cy x y eq_refl Hf Hp).
  eexists. split; [reflexivity|].
  unfold after_handshake. cbn [self files calls arduino]. rewrite Hrx.
  repeat split.
Qed.

(** X12: when the calibration file holds five well-formed lines,
    construction loads them and does not calibrate: the five quantities
    are the numbers of the file, nothing is written to the port after the
    handshake and the file system is left as it was. *)
Theorem startup_with_profile (getRbyADC : Q -> Q) (float : string -> option Q)
    (str_float : Q -> string) (port : Serial) (fs : string -> option string)
    (path content : string) (rest : list byte)
    (c : list Q) (cx cy x y : Interval) :
  rx port = "b"%byte :: rest ->
  fs path = Some content ->
  profile_of float content c cx cy x y ->
  exists w',
    Joy_init getRbyADC float str_float (Some path) (fresh port fs)
    = (Ok tt, w') /\
    self w'
    = mkJoy (Some path) (mkSerial rest (tx port)) (Some c) (Some cx) (Some cy)
        (Some x) (Some y) /\
    files w' = fs /\
    calls w' = [].
Proof.
  exact (Joy_init_profile getRbyADC float str_float port fs path content
           rest c cx cy x y).
Qed.

Lemma startup_with_profile_witness :
  exists w',
    Joy_init same_value integer_float plain_str (Some "joy.conf"%string)
      (fresh (mkSerial ("b"%byte :: sample_reply) [])
         (one_file "joy.conf" integer_profile))
    = (Ok tt, w') /\
    self w'
    = mkJoy (Some "joy.conf"%string) (mkSerial sample_reply [])
        (Some [inject_Z 512; inject_Z 496])
        (Some (mkInterval (inject_Z 500) (inject_Z 520)))
        (Some (mkInterval (inject_Z 490) (inject_Z 500)))
        (Some (mkInterval (inject_Z 0) (inject_Z 1023)))
        (Some (mkInterval (inject_Z 0) (inject_Z 1023))) /\
    files w' = one_file "joy.conf" integer_profile /\
    calls w' = [].
Proof.
  apply (startup_with_profile same_value integer_float plain_str
           (mkSerial ("b"%byte :: sample_reply) [])
           (one_file "joy.conf" integer_profile) "joy.conf" integer_profile
           sample_reply).
  - reflexivity.
  - reflexivity.
  - unfold profile_of. repeat split; vm_compute; reflexivity.
Defined.

(** ** Saving a profile and loading it again *)

Lemma free_of_app (c : ascii) (a b : string) :
  free_of c (a ++ b)%string = free_of c a && free_of c b.
Proof.
  induction a as [|x a IH]; simpl; [reflexivity|].
  now rewrite IH, andb_assoc.
Qed.

Lemma readline_line (s rest : string) :
  free_of "010"%char s = true ->
  Text.readline ((s ++ String "010"%char EmptyString) ++ rest)%string
  = ((s ++ String "010"%char EmptyString)%string, rest).
Proof.
  induction s as [|x s IH]; simpl; intro H; [reflexivity|].
  apply andb_true_iff in H. destruct H as [Hx Hs].
  apply negb_true_iff in Hx. rewrite Hx, (IH Hs). reflexivity.
Qed.

Lemma readline_last (s : string) :
  free_of "010"%char s = true ->
  Text.readline (s ++ String "010"%char EmptyString)%string
  = ((s ++ String "010"%char EmptyString)%string, EmptyString).
Proof.
  induction s as [|x s IH]; simpl; intro H; [reflexivity|].
  apply andb_true_iff in H. destruct H as [Hx Hs].
  apply negb_true_iff in Hx. rewrite Hx, (IH Hs). reflexivity.
Qed.

Lemma split_free (s : string) :
  free_of " "%char s = true -> Text.split " "%char s = [s].
Proof.
  induction s as [|x s IH]; simpl; intro H; [reflexivity|].
  apply andb_true_iff in H. destruct H as [Hx Hs].
  apply negb_true_iff in Hx. rewrite Hx, (IH Hs). reflexivity.
Qed.

Lemma split_two (a b : string) :
  free_of " "%char a = true -> free_of " "%char b = true ->
  Text.split " "%char (a ++ String " "%char b)%string = [a; b].
Proof.
  intros Ha Hb. induction a as [|x a IH]; simpl.
  - now rewrite (split_free b Hb).
  - simpl in Ha. apply andb_true_iff in Ha. destruct Ha as [Hx Ha].
    apply negb_true_iff in Hx. rewrite Hx, (IH Ha). reflexivity.
Qed.

Lemma append_assoc (a b c : string) :
  ((a ++ b) ++ c = a ++ (b ++ c))%string.
Proof. induction a as [|x a IH]; simpl; [reflexivity|now rewrite IH]. Qed.

(** The line [save_config] writes for two numbers, read back. *)
Lemma floats_pair (float : string -> option Q) (str_float : Q -> string)
    (a b : Q) :
  readable float str_float a -> readable float str_float b ->
  free_of "010"%char (str_float a ++ " " ++ str_float b)%string = true /\
  floats float ((str_float a ++ " " ++ str_float b)
                ++ String "010"%char EmptyString)%string
  = Ok [a; b].
Proof.
  intros (A1 & A2 & A3 & A4) (B1 & B2 & B3 & B4). split.
  - rewrite free_of_app, A2. simpl. exact B2.
  - unfold floats.
    change (str_float a ++ " " ++ str_float b)%string
      with (str_float a ++ String " "%char (str_float b))%string.
    rewrite append_assoc. cbn [append].
    rewrite split_two; [|exact A1|].
    + cbn [floats_of]. rewrite A3, B4. reflexivity.
    + rewrite free_of_app, B1. reflexivity.
Qed.

Lemma save_config_text (str_float : Q -> string) (w : World) (path : string)
    (c : list Q) (cx cy x y : Interval) :
  config_file (self w) = Some path ->
  _center (self w) = Some c ->
  _center_x_interval (self w) = Some cx ->
  _center_y_interval (self w) = Some cy ->
  _x_interval (self w) = Some x ->
  _y_interval (self w) = Some y ->
  save_config str_float w
  = (Ok tt,
     mkWorld (self w)
       (fun p => if String.eqb p path
                 then Some (profile_text str_float c cx cy x y)
                 else if String.eqb p path then Some EmptyString
                      else files w p)
       (stdout w ++ ["Config save!" ++ String "010"%char EmptyString]%string)
       (calls w)).
Proof.
  intros Hc H0 H1 H2 H3 H4.
  destruct w as [[cfg port c' cx' cy' x' y'] fs out cl].
  cbn [self config_file _center _center_x_interval _center_y_interval
       _x_interval _y_interval] in Hc, H0, H1, H2, H3, H4.
  subst. reflexivity.
Qed.

Lemma profile_text_read_back (float : string -> option Q)
    (str_float : Q -> string) (c0 c1 : Q) (cx cy x y : Interval) :
  Forall (readable float str_float)
    [c0; c1; left cx; right cx; left cy; right cy;
     left x; right x; left y; right y] ->
  profile_of float (profile_text str_float [c0; c1] cx cy x y)
    [c0; c1] cx cy x y.
Proof.
  intro Hr.
  assert (R : forall q, In q [c0; c1; left cx; right cx; left cy; right cy;
                              left x; right x; left y; right y] ->
                        readable float str_float q)
    by (apply Forall_forall; exact Hr).
  destruct (floats_pair float str_float c0 c1) as [N0 F0];
    [apply R; simpl; tauto | apply R; simpl; tauto |].
  destruct (floats_pair float str_float (left cx) (right cx)) as [N1 F1];
    [apply R; simpl; tauto | apply R; simpl; tauto |].
  destruct (floats_pair float str_float (left cy) (right cy)) as [N2 F2];
    [apply R; simpl; tauto | apply R; simpl; tauto |].
  destruct (floats_pair float str_float (left x) (right x)) as [N3 F3];
    [apply R; simpl; tauto | apply R; simpl; tauto |].
  destruct (floats_pair float str_float (left y) (right y)) as [N4 F4];
    [apply R; simpl; tauto | apply R; simpl; tauto |].
  unfold profile_of, profile_text, str_interval.
  cbn [map String.concat]. cbn [append].
  rewrite !nth_line_S, !nth_line_0.
  rewrite !readline_line by assumption. cbn [fst snd].
  rewrite !readline_line by assumption. cbn [fst snd].
  rewrite !readline_line by assumption. cbn [fst snd].
  rewrite !readline_line by assumption. cbn [fst snd].
  rewrite !readline_last by assumption. cbn [fst snd].
  repeat split; assumption.
Qed.

(** X13: a profile written by [save_config] is read back by
    [load_config] as it was: when the ten numbers are written and read
    faithfully by [str] and [float], saving and then loading leaves the
    center and the four intervals exactly as they were. *)
Theorem save_then_load (float : string -> option Q) (str_float : Q -> string)
    (w : World) (path : string) (port : Serial) (c0 c1 : Q)
    (cx cy x y : Interval) :
  self w
  = mkJoy (Some path) port (Some [c0; c1]) (Some cx) (Some cy) (Some x)
      (Some y) ->
  Forall (readable float str_float)
    [c0; c1; left cx; right cx; left cy; right cy;
     left x; right x; left y; right y] ->
  exists w1 w2,
    save_config str_float w = (Ok tt, w1) /\
    files w1 path = Some (profile_text str_float [c0; c1] cx cy x y) /\
    load_config float w1 = (Ok tt, w2) /\
    self w2 = self w /\
    files w2 path = files w1 path.
Proof.
  intros Hs Hr.
  pose proof (profile_text_read_back float str_float c0 c1 cx cy x y Hr)
    as P.
  pose proof (save_config_text str_float w path [c0; c1] cx cy x y) as Hsave.
  rewrite Hs in Hsave. specialize (Hsave eq_refl eq_refl eq_refl eq_refl
                                     eq_refl eq_refl).
  rewrite <- Hs in Hsave.
  match type of Hsave with _ = (_, ?W) => set (w1 := W) in * end.
  assert (Hf : files w1 path = Some (profile_text str_float [c0; c1] cx cy x y))
    by (unfold w1; cbn [files]; rewrite String.eqb_refl; reflexivity).
  assert (Hc : config_file (self w1) = Some path)
    by (unfold w1; cbn [self]; rewrite Hs; reflexivity).
  exists w1. eexists. split; [exact Hsave|]. split; [exact Hf|].
  rewrite (load_config_profile float w1 path _ [c0; c1] cx cy x y Hc Hf P).
  split; [reflexivity|]. cbn [self files]. unfold w1. cbn [self arduino].
  rewrite Hs. split; reflexivity.
Qed.

Lemma save_then_load_witness :
  exists w1 w2,
    save_config plain_str (sample_saving (mkSerial [] [])) = (Ok tt, w1) /\
    files w1 "joy.conf"%string = Some integer_profile /\
    load_config integer_float w1 = (Ok tt, w2) /\
    self w2 = self (sample_saving (mkSerial [] [])) /\
    files w2 "joy.conf"%string = files w1 "joy.conf"%string.
Proof.
  apply (save_then_load integer_float plain_str
           (sample_saving (mkSerial [] [])) "joy.conf" (mkSerial [] [])
           512 496 (mkInterval 500 520) (mkInterval 490 500)
           (mkInterval 0 1023) (mkInterval 0 1023)).
  - reflexivity.
  - repeat (constructor;
            [unfold readable; repeat split; vm_compute; reflexivity|]).
    constructor.
Defined.

(** ** Running a computation step by step *)

Lemma total_bind {A B : Type} (P Q : World -> Prop) (m : M A) (v : A)
    (k : A -> M B) (R : B -> World -> Prop) :
  total P m (fun a w => a = v /\ Q w) ->
  total Q (k v) R ->
  total P (bind m k) R.
Proof.
  intros Hm Hk w Hw.
  destruct (Hm w Hw) as (a & w1 & E & Ha & Hq). subst a.
  destruct (Hk w1 Hq) as (b & w2 & E2 & Hr).
  exists b, w2. split; [|exact Hr]. unfold bind. rewrite E. exact E2.
Qed.

Lemma total_at_eq {A : Type} (P : World -> Prop) (m : M A) (v : A)
    (j j' : Joy) (fs : string -> option string) (cl : list (list string)) :
  j = j' ->
  total P m (fun a w => a = v /\ at_ j fs cl w) ->
  total P m (fun a w => a = v /\ at_ j' fs cl w).
Proof. intros <- H. exact H. Qed.

Ltac at_world :=
  let j := fresh "j" in
  let fs := fresh "fs" in
  let out := fresh "out" in
  let cl := fresh "cl" in
  let H1 := fresh in
  let H2 := fresh in
  let H3 := fresh in
  intros [j fs out cl] (H1 & H2 & H3);
  cbn [self files calls] in H1, H2, H3; subst.

Ltac at_done :=
  eexists; eexists; split; [reflexivity|];
  split; [reflexivity|]; repeat split.

Lemma t_print (j : Joy) (fs : string -> option string)
    (cl : list (list string)) (s e : string) :
  total (at_ j fs cl) (print_end s e) (fun a w => a = tt /\ at_ j fs cl w).
Proof. at_world. at_done. Qed.

Lemma t_modify (f : Joy -> Joy) (j : Joy) (fs : string -> option string)
    (cl : list (list string)) :
  total (at_ j fs cl) (modify (with_self f))
    (fun a w => a = tt /\ at_ (f j) fs cl w).
Proof. at_world. at_done. Qed.

Lemma t_assign (a : attr) (i : Interval) (j : Joy)
    (fs : string -> option string) (cl : list (list string)) :
  total (at_ j fs cl) (assign a i)
    (fun u w => u = tt /\ at_ (set_interval a (Some i) j) fs cl w).
Proof. at_world. at_done. Qed.

Lemma t_get_raw_data (j : Joy) (fs : string -> option string)
    (cl : list (list string)) (a b c d e f g : byte) (r : list byte) :
  rx (arduino j) = a :: b :: c :: d :: e :: f :: g :: r ->
  total (at_ j fs cl) _get_raw_data
    (fun v w =>
       v = (Struct.i16 a b, Struct.i16 c d, Struct.i8 e, Struct.i8 f,
            Struct.u8 g) /\
       at_ (set_arduino (mkSerial r (tx (arduino j) ++ [x0f])%list) j) fs cl w).
Proof.
  intro H. at_world.
  rewrite (get_raw_data_frame (mkWorld j fs out cl) a b c d e f g r H).
  eexists; eexists; split; [reflexivity|]. split; [reflexivity|].
  unfold after_request. cbn [with_self self files calls]. rewrite H.
  repeat split.
Qed.

Lemma t_the_interval (a : attr) (i : Interval) (j : Joy)
    (fs : string -> option string) (cl : list (list string)) :
  get_interval a j = Some i ->
  total (at_ j fs cl) (the_interval a) (fun v w => v = i /\ at_ j fs cl w).
Proof.
  intro H. at_world. unfold the_interval. cbn [self]. rewrite H. at_done.
Qed.

Lemma t_center_at (k : nat) (c : list Q) (x : Q) (j : Joy)
    (fs : string -> option string) (cl : list (list string)) :
  _center j = Some c -> nth_error c k = Some x ->
  total (at_ j fs cl) (center_at k) (fun v w => v = x /\ at_ j fs cl w).
Proof.
  intros H1 H2. at_world. unfold center_at. cbn [self]. rewrite H1, H2.
  at_done.
Qed.

Lemma t_center_update (k : nat) (f : Q -> result Q) (c : list Q) (x y : Q)
    (j : Joy) (fs : string -> option string) (cl : list (list string)) :
  _center j = Some c -> nth_error c k = Some x -> f x = Ok y ->
  total (at_ j fs cl) (center_update k f)
    (fun u w =>
       u = tt /\
       at_ (set_center (Some (firstn k c ++ y :: skipn (S k) c)%list) j) fs cl w).
Proof.
  intros H1 H2 H3. at_world. unfold center_update. cbn [self].
  rewrite H1, H2, H3. at_done.
Qed.

Lemma t_extend_attr (a : attr) (value : Z) (i : Interval) (j : Joy)
    (fs : string -> option string) (cl : list (list string)) :
  get_interval a j = Some i ->
  total (at_ j fs cl) (extend_attr a value)
    (fun u w =>
       u = tt /\
       at_ (set_interval a (Some (IntervalOps.extend i (inject_Z value))) j)
         fs cl w).
Proof.
  intro H. unfold extend_attr.
  eapply total_bind; [apply t_the_interval; exact H|]. apply t_assign.
Qed.

Lemma t_adc2r_attr (getRbyADC : Q -> Q) (a : attr) (i : Interval) (j : Joy)
    (fs : string -> option string) (cl : list (list string)) :
  get_interval a j = Some i ->
  total (at_ j fs cl) (adc2r_attr getRbyADC a)
    (fun u w =>
       u = tt /\
       at_ (set_interval a (Some (IntervalOps.adc2r getRbyADC i)) j) fs cl w).
Proof.
  intro H. unfold adc2r_attr.
  eapply total_bind; [apply t_the_interval; exact H|]. apply t_assign.
Qed.

Lemma t_progress (i count : Z) (j : Joy) (fs : string -> option string)
    (cl : list (list string)) :
  100 <= count ->
  total (at_ j fs cl) (progress i count) (fun u w => u = tt /\ at_ j fs cl w).
Proof.
  intro Hc. at_world.
  unfold progress, bind, lift, Py.floordiv, Py.mod_. cbn [Z.eqb].
  assert (Hq : 0 < count / 100) by (apply Z.div_str_pos; lia).
  destruct (count / 100 =? 0) eqn:E1; [apply Z.eqb_eq in E1; lia|].
  destruct (count =? 0) eqn:E2; [apply Z.eqb_eq in E2; lia|].
  destruct (i mod (count / 100) =? 0); at_done.
Qed.

Lemma t_save_config (str_float : Q -> string) (c : list Q) (j : Joy)
    (fs : string -> option string) (cl : list (list string)) :
  _center j = Some c ->
  total (at_ j fs cl) (save_config str_float)
    (fun u w => u = tt /\ at_ j (saved str_float j fs) cl w).
Proof.
  intro H. at_world. unfold saved. rewrite H.
  destruct j as [cfg port c' cx cy x y]. cbn [_center] in H. subst c'.
  destruct cfg as [path|];
    unfold save_config, bind, gets, write_file, modify, print, print_end, ret;
    cbn [self config_file _center _center_x_interval _center_y_interval
         _x_interval _y_interval files stdout calls];
    at_done.
Qed.

(** ** The two sampling loops *)

Ltac side :=
  cbn [set_arduino set_center set_interval set_config_file get_interval
       config_file arduino _center _center_x_interval _center_y_interval
       _x_interval _y_interval rx tx nth_error firstn skipn app];
  first [eassumption | reflexivity].

Ltac run lemma := eapply total_bind; [eapply lemma; side | cbv beta iota].

Lemma t_ret (j : Joy) (fs : string -> option string) (cl : list (list string)) :
  total (at_ j fs cl) (ret tt) (fun u w => u = tt /\ at_ j fs cl w).
Proof. at_world. at_done. Qed.

Lemma centering_loop (count : Z) (rest : list byte)
    (fs : string -> option string) (cl : list (list string))
    (frames : list (list byte)) :
  (frames <> [] -> 100 <= count) ->
  Forall (fun frame => List.length frame = 7%nat) frames ->
  forall (l : list Z) (j : Joy) (c0 c1 : Q) (cx cy : Interval),
    List.length l = List.length frames ->
    rx (arduino j) = (List.concat frames ++ rest)%list ->
    _center j = Some [c0; c1] ->
    _center_x_interval j = Some cx ->
    _center_y_interval j = Some cy ->
    total (at_ j fs cl)
      (for_ l (fun i =>
         ' (xV, yV, _, _, _) <- _get_raw_data ;;
         center_update 0 (fun c => Ok (c + inject_Z xV)%Q) ;;
         center_update 1 (fun c => Ok (c + inject_Z yV)%Q) ;;
         extend_attr CenterX xV ;;
         extend_attr CenterY yV ;;
         progress i count))
      (fun u w =>
         u = tt /\ at_ (after_centering frames rest c0 c1 cx cy j) fs cl w).
Proof.
  intros Hc HF. revert Hc. induction HF as [|frame frames Hlen _ IH];
    intros Hc l j c0 c1 cx cy Hl Hrx H0 H1 H2.
  - destruct l; [|discriminate Hl]. cbn [for_].
    eapply total_at_eq; [|apply t_ret].
    destruct j as [cfg [rxp txp] c cx' cy' x y].
    cbn [rx arduino _center _center_x_interval _center_y_interval] in *.
    subst. unfold after_centering. cbn. now rewrite app_nil_r.
  - destruct l as [|i l]; [discriminate Hl|]. injection Hl as Hl.
    assert (H100 : 100 <= count) by (apply Hc; discriminate).
    destruct frame as [|a [|b [|c [|d [|e [|f [|g [|? ?]]]]]]]];
      try discriminate Hlen.
    cbn [List.concat app] in Hrx. cbn [for_].
    eapply total_bind.
    + run t_get_raw_data.
      run t_center_update.
      run t_center_update.
      run t_extend_attr.
      run t_extend_attr.
      apply t_progress. exact H100.
    + eapply total_at_eq; cycle 1.
      * eapply IH; [intros _; exact H100 | exact Hl | side | side | side | side].
      * unfold after_centering.
        cbn [set_arduino set_center set_interval config_file arduino _center
             _center_x_interval _center_y_interval _x_interval _y_interval
             rx tx firstn skipn app List.length repeat sum_of hull_of
             fold_left frame_x frame_y].
        rewrite <- app_assoc. reflexivity.
Qed.

Lemma sweeping_loop (count : Z) (rest : list byte)
    (fs : string -> option string) (cl : list (list string))
    (frames : list (list byte)) :
  (frames <> [] -> 100 <= count) ->
  Forall (fun frame => List.length frame = 7%nat) frames ->
  forall (l : list Z) (j : Joy) (x y : Interval),
    List.length l = List.length frames ->
    rx (arduino j) = (List.concat frames ++ rest)%list ->
    _x_interval j = Some x ->
    _y_interval j = Some y ->
    total (at_ j fs cl)
      (for_ l (fun i =>
         ' (xV, yV, _, _, _) <- _get_raw_data ;;
         extend_attr TravelX xV ;;
         extend_attr TravelY yV ;;
         progress i count))
      (fun u w => u = tt /\ at_ (after_sweeping frames rest x y j) fs cl w).
Proof.
  intros Hc HF. revert Hc. induction HF as [|frame frames Hlen _ IH];
    intros Hc l j x y Hl Hrx H1 H2.
  - destruct l; [|discriminate Hl]. cbn [for_].
    eapply total_at_eq; [|apply t_ret].
    destruct j as [cfg [rxp txp] c cx' cy' x' y'].
    cbn [rx arduino _x_interval _y_interval] in *.
    subst. unfold after_sweeping. cbn. now rewrite app_nil_r.
  - destruct l as [|i l]; [discriminate Hl|]. injection Hl as Hl.
    assert (H100 : 100 <= count) by (apply Hc; discriminate).
    destruct frame as [|a [|b [|c [|d [|e [|f [|g [|? ?]]]]]]]];
      try discriminate Hlen.
    cbn [List.concat app] in Hrx. cbn [for_].
    eapply total_bind.
    + run t_get_raw_data.
      run t_extend_attr.
      run t_extend_attr.
      apply t_progress. exact H100.
    + eapply total_at_eq; cycle 1.
      * eapply IH; [intros _; exact H100 | exact Hl | side | side | side].
      * unfold after_sweeping.
        cbn [set_arduino set_center set_interval config_file arduino _center
             _center_x_interval _center_y_interval _x_interval _y_interval
             rx tx firstn skipn app List.length repeat sum_of hull_of
             fold_left frame_x frame_y].
        rewrite <- app_assoc. reflexivity.
Qed.

(** ** A complete calibration *)

Lemma total_post {A : Type} (P : World -> Prop) (m : M A)
    (Q Q' : A -> World -> Prop) :
  (forall a w, Q a w -> Q' a w) -> total P m Q -> total P m Q'.
Proof.
  intros HQ Hm w Hw. destruct (Hm w Hw) as (a & w' & E & Hq).
  exists a, w'. split; [exact E|]. apply HQ, Hq.
Qed.

Lemma range_length (count : Z) : List.length (Py.range count) = Z.to_nat count.
Proof. unfold Py.range. now rewrite length_map, length_seq. Qed.

Lemma requests_sent (t : list byte) (n m : nat) :
  (((t ++ [x0f]) ++ repeat x0f n) ++ repeat x0f m)%list
  = (t ++ repeat x0f (1 + n + m))%list.
Proof.
  rewrite <- !app_assoc. f_equal.
  change ([x0f] ++ repeat x0f n ++ repeat x0f m)%list
    with (repeat x0f 1 ++ repeat x0f n ++ repeat x0f m)%list.
  now rewrite <- !repeat_app, Nat.add_assoc.
Qed.

Ltac side ::=
  cbn [set_arduino set_center set_interval set_config_file get_interval
       after_centering after_sweeping
       config_file arduino _center _center_x_interval _center_y_interval
       _x_interval _y_interval rx tx nth_error firstn skipn app];
  first [eassumption | reflexivity].

Lemma calibrate_total_any (getRbyADC : Q -> Q) (str_float : Q -> string)
    (count : Z) (first : list byte) (centered swept : list (list byte))
    (rest : list byte) (j : Joy) (fs : string -> option string)
    (cl : list (list string)) :
  100 <= count \/ count < 0 ->
  List.length first = 7%nat ->
  Forall (fun frame => List.length frame = 7%nat) centered ->
  Forall (fun frame => List.length frame = 7%nat) swept ->
  List.length centered = Z.to_nat count ->
  List.length swept = Z.to_nat count ->
  rx (arduino j)
  = (first ++ List.concat centered ++ List.concat swept ++ rest)%list ->
  total (at_ j fs cl) (calibrate getRbyADC str_float count)
    (fun u w =>
       u = tt /\
       at_ (calibration getRbyADC count first centered swept rest j)
         (saved str_float
            (calibration getRbyADC count first centered swept rest j) fs)
         cl w).
Proof.
  intros Hc Hlen HF1 HF2 Hn1 Hn2 Hrx.
  destruct first as [|a [|b [|c [|d [|e [|f [|g [|? ?]]]]]]]];
    try discriminate Hlen.
  cbn [app] in Hrx.
  assert (Hd : forall q, Py.truediv q (inject_Z count) = Ok (q / inject_Z count)%Q).
  { intro q. apply truediv_ok. unfold Qeq; simpl. lia. }
  assert (Hc1 : centered <> [] -> 100 <= count).
  { intro Hne. destruct Hc as [Hc|Hc]; [exact Hc|].
    destruct centered; [now contradiction Hne | simpl in Hn1; lia]. }
  assert (Hc2 : swept <> [] -> 100 <= count).
  { intro Hne. destruct Hc as [Hc|Hc]; [exact Hc|].
    destruct swept; [now contradiction Hne | simpl in Hn2; lia]. }
  unfold calibrate.
  run t_print. run t_print. run t_modify.
  run t_get_raw_data.
  run t_assign. run t_assign. run t_assign. run t_assign.
  run t_print.
  eapply total_bind.
  { eapply (centering_loop count (List.concat swept ++ rest) fs cl centered
              Hc1 HF1);
      [rewrite range_length; symmetry; exact Hn1 | side | side | side | side]. }
  cbv beta iota.
  eapply total_bind;
    [eapply t_center_update; [side | side | apply Hd] | cbv beta iota].
  eapply total_bind;
    [eapply t_center_update; [side | side | apply Hd] | cbv beta iota].
  run t_center_update. run t_center_update.
  run t_adc2r_attr. run t_adc2r_attr.
  run t_the_interval. run t_the_interval.
  run t_center_at. run t_center_at.
  run t_print. run t_print.
  eapply total_bind.
  { eapply (sweeping_loop count rest fs cl swept Hc2 HF2);
      [rewrite range_length; symmetry; exact Hn2 | side | side | side]. }
  cbv beta iota.
  run t_adc2r_attr. run t_adc2r_attr.
  run t_the_interval.
  run t_print.
  eapply total_post; [|eapply t_save_config; side].
  intros u w [-> H].
  split; [reflexivity|].
  match type of H with
  | at_ ?J _ _ _ =>
      assert (EJ : J = calibration getRbyADC count
                         [a; b; c; d; e; f; g] centered swept rest j)
  end.
  { unfold calibration.
    cbn [set_arduino set_center set_interval get_interval
         after_centering after_sweeping
         config_file arduino _center _center_x_interval _center_y_interval
         _x_interval _y_interval rx tx nth_error firstn skipn app
         frame_x frame_y].
    rewrite requests_sent. reflexivity. }
  rewrite EJ in H. exact H.
Qed.

Lemma calibrate_total (getRbyADC : Q -> Q) (str_float : Q -> string)
    (count : Z) (first : list byte) (centered swept : list (list byte))
    (rest : list byte) (j : Joy) (fs : string -> option string)
    (cl : list (list string)) :
  100 <= count ->
  List.length first = 7%nat ->
  Forall (fun frame => List.length frame = 7%nat) centered ->
  Forall (fun frame => List.length frame = 7%nat) swept ->
  List.length centered = Z.to_nat count ->
  List.length swept = Z.to_nat count ->
  rx (arduino j)
  = (first ++ List.concat centered ++ List.concat swept ++ rest)%list ->
  total (at_ j fs cl) (calibrate getRbyADC str_float count)
    (fun u w =>
       u = tt /\
       at_ (calibration getRbyADC count first centered swept rest j)
         (saved str_float
            (calibration getRbyADC count first centered swept rest j) fs)
         cl w).
Proof.
  intro Hc. apply calibrate_total_any. left. exact Hc.
Qed.

(** X14: a calibration with [count >= 100] whose peer answers every
    request with a full reply completes, and its result is a function of
    the [1 + 2 * count] replies alone: the first reply seeds the four
    intervals, the next [count] give the center (the converted mean of
    their axis values) and the two dead zones, the last [count] the two
    travel intervals.  Exactly [1 + 2 * count] request bytes 15 are sent
    and as many replies consumed, the profile is saved to the calibration
    file if there is one, no command is run, and nothing of the old
    center or intervals survives. *)
Theorem calibrate_result (getRbyADC : Q -> Q) (str_float : Q -> string)
    (count : Z) (w : World) (first : list byte)
    (centered swept : list (list byte)) (rest : list byte) :
  100 <= count ->
  List.length first = 7%nat ->
  Forall (fun frame => List.length frame = 7%nat) centered ->
  Forall (fun frame => List.length frame = 7%nat) swept ->
  List.length centered = Z.to_nat count ->
  List.length swept = Z.to_nat count ->
  rx (arduino (self w))
  = (first ++ List.concat centered ++ List.concat swept ++ rest)%list ->
  exists w',
    calibrate getRbyADC str_float count w = (Ok tt, w') /\
    self w' = calibration getRbyADC count first centered swept rest (self w) /\
    files w'
    = saved str_float
        (calibration getRbyADC count first centered swept rest (self w))
        (files w) /\
    calls w' = calls w.
Proof.
  intros Hc Hlen HF1 HF2 Hn1 Hn2 Hrx.
  destruct (calibrate_total getRbyADC str_float count first centered swept
              rest (self w) (files w) (calls w) Hc Hlen HF1 HF2 Hn1 Hn2 Hrx w)
    as (u & w' & E & -> & Hs & Hf & Hcl).
  { repeat split. }
  exists w'. repeat split; assumption.
Qed.

Lemma calibrate_result_witness :
  exists w',
    calibrate same_value plain_str 100
      (fresh (mkSerial (sample_reply
                        ++ List.concat (repeat sample_reply 100)
                        ++ List.concat (repeat pushed_reply 100) ++ [])%list [])
         no_files)
    = (Ok tt, w') /\
    self w'
    = calibration same_value 100 sample_reply (repeat sample_reply 100)
        (repeat pushed_reply 100) []
        (mkJoy None
           (mkSerial (sample_reply
                      ++ List.concat (repeat sample_reply 100)
                      ++ List.concat (repeat pushed_reply 100) ++ [])%list [])
           None None None None None) /\
    files w'
    = saved plain_str
        (calibration same_value 100 sample_reply (repeat sample_reply 100)
           (repeat pushed_reply 100) []
           (mkJoy None
              (mkSerial (sample_reply
                         ++ List.concat (repeat sample_reply 100)
                         ++ List.concat (repeat pushed_reply 100) ++ [])%list [])
              None None None None None))
        no_files /\
    calls w' = [].
Proof.
  apply (calibrate_result same_value plain_str 100
           (fresh (mkSerial (sample_reply
                             ++ List.concat (repeat sample_reply 100)
                             ++ List.concat (repeat pushed_reply 100)
                             ++ [])%list [])
              no_files)
           sample_reply (repeat sample_reply 100) (repeat pushed_reply 100) []).
  - lia.
  - reflexivity.
  - apply Forall_forall. intros frame H. apply repeat_spec in H. subst frame.
    reflexivity.
  - apply Forall_forall. intros frame H. apply repeat_spec in H. subst frame.
    reflexivity.
  - reflexivity.
  - reflexivity.
  - reflexivity.
Defined.

(** X15: calibration makes the object usable: after a completed
    calibration, a further full reply is mapped by [get_data] without any
    error, to two positions of [-1, 1] and a mask of [0, 255]. *)
Theorem calibrate_then_get_data (getRbyADC : Q -> Q) (str_float : Q -> string)
    (count : Z) (w : World) (first : list byte)
    (centered swept : list (list byte)) (frame rest : list byte) :
  100 <= count ->
  List.length first = 7%nat ->
  Forall (fun frame => List.length frame = 7%nat) centered ->
  Forall (fun frame => List.length frame = 7%nat) swept ->
  List.length centered = Z.to_nat count ->
  List.length swept = Z.to_nat count ->
  List.length frame = 7%nat ->
  rx (arduino (self w))
  = (first ++ List.concat centered ++ List.concat swept ++ frame ++ rest)%list ->
  exists w1 w2 xPos yPos btn_mask,
    calibrate getRbyADC str_float count w = (Ok tt, w1) /\
    get_data getRbyADC w1 = (Ok (xPos, yPos, btn_mask), w2) /\
    (-1 <= xPos)%Q /\ (xPos <= 1)%Q /\ (-1 <= yPos)%Q /\ (yPos <= 1)%Q /\
    0 <= btn_mask <= 255 /\
    rx (arduino (self w2)) = rest.
Proof.
  intros Hc Hlen HF1 HF2 Hn1 Hn2 Hfr Hrx.
  destruct (calibrate_total getRbyADC str_float count first centered swept
              (frame ++ rest) (self w) (files w) (calls w)
              Hc Hlen HF1 HF2 Hn1 Hn2 Hrx w)
    as (u & w1 & E & -> & Hs & _ & _).
  { repeat split. }
  destruct frame as [|a [|b [|c [|d [|e [|f [|g [|? ?]]]]]]]];
    try discriminate Hfr.
  edestruct (get_data_frame getRbyADC w1 a b c d e f g rest)
    as (xPos & yPos & Ex & Ey & Eg);
    [rewrite Hs; reflexivity | rewrite Hs; reflexivity
     | rewrite Hs; reflexivity | rewrite Hs; reflexivity
     | rewrite Hs; reflexivity |].
  exists w1, (after_request 7 w1), xPos, yPos, (Struct.u8 g).
  split; [exact E|]. split; [exact Eg|].
  match type of Ex with calc_f ?t ?dz ?v = _ =>
    destruct (calc_f_range t dz v) as (p & Ep & R1 & R2) end.
  rewrite Ex in Ep. injection Ep as <-.
  match type of Ey with calc_f ?t ?dz ?v = _ =>
    destruct (calc_f_range t dz v) as (q & Eq & R3 & R4) end.
  rewrite Ey in Eq. injection Eq as <-.
  pose proof (u8_range g).
  do 5 (split; [assumption|]).
  unfold after_request. cbn [with_self self set_arduino arduino rx].
  rewrite Hs. reflexivity.
Qed.

Lemma calibrate_then_get_data_witness :
  exists w1 w2 xPos yPos btn_mask,
    calibrate same_value plain_str 100
      (fresh (mkSerial (sample_reply
                        ++ List.concat (repeat sample_reply 100)
                        ++ List.concat (repeat pushed_reply 100)
                        ++ pushed_reply ++ [])%list [])
         no_files)
    = (Ok tt, w1) /\
    get_data same_value w1 = (Ok (xPos, yPos, btn_mask), w2) /\
    (-1 <= xPos)%Q /\ (xPos <= 1)%Q /\ (-1 <= yPos)%Q /\ (yPos <= 1)%Q /\
    0 <= btn_mask <= 255 /\
    rx (arduino (self w2)) = [].
Proof.
  apply (calibrate_then_get_data same_value plain_str 100
           (fresh (mkSerial (sample_reply
                             ++ List.concat (repeat sample_reply 100)
                             ++ List.concat (repeat pushed_reply 100)
                             ++ pushed_reply ++ [])%list [])
              no_files)
           sample_reply (repeat sample_reply 100) (repeat pushed_reply 100)
           pushed_reply []).
  - lia.
  - reflexivity.
  - apply Forall_forall. intros frame H. apply repeat_spec in H. subst frame.
    reflexivity.
  - apply Forall_forall. intros frame H. apply repeat_spec in H. subst frame.
    reflexivity.
  - reflexivity.
  - reflexivity.
  - reflexivity.
  - reflexivity.
Defined.

(** ** From one start to the next *)

Lemma load_config_missing_world (float : string -> option Q) (w : World)
    (path : string) :
  config_file (self w) = Some path -> files w path = None ->
  load_config float w
  = (Raise FileNotFoundError,
     mkWorld (self w) (files w)
       (stdout w ++ ["Load config..." ++ String "010"%char EmptyString]%string)
       (calls w)).
Proof.
  intros Hc Hf. destruct w as [j fs out cl]. simpl in *.
  unfold load_config, bind, print, print_end, modify, gets, open_rt.
  cbn [self files stdout calls]. rewrite Hc. cbn [files]. rewrite Hf.
  reflexivity.
Qed.

(** X16: a calibration survives a restart.  A first start that finds no
    calibration file calibrates with the default count of 500 and saves;
    when [str] and [float] write and read the ten numbers of the profile
    faithfully, a second start with the same path finds the file, loads
    the same center and the same four intervals, sends no request and
    leaves the file as it is. *)
Theorem calibration_survives_restart (getRbyADC : Q -> Q)
    (float : string -> option Q) (str_float : Q -> string)
    (port port2 : Serial) (fs : string -> option string) (path : string)
    (first : list byte) (centered swept : list (list byte))
    (rest rest2 : list byte) :
  rx port
  = ("b"%byte
     :: first ++ List.concat centered ++ List.concat swept ++ rest)%list ->
  rx port2 = "b"%byte :: rest2 ->
  fs path = None ->
  List.length first = 7%nat ->
  Forall (fun frame => List.length frame = 7%nat) centered ->
  Forall (fun frame => List.length frame = 7%nat) swept ->
  List.length centered = 500%nat ->
  List.length swept = 500%nat ->
  Forall (readable float str_float)
    (profile_numbers
       (calibration getRbyADC 500 first centered swept rest
          (self (after_handshake port fs (Some path))))) ->
  exists w1 w2,
    Joy_init getRbyADC float str_float (Some path) (fresh port fs)
    = (Ok tt, w1) /\
    self w1
    = calibration getRbyADC 500 first centered swept rest
        (self (after_handshake port fs (Some path))) /\
    Joy_init getRbyADC float str_float (Some path) (fresh port2 (files w1))
    = (Ok tt, w2) /\
    _center (self w2) = _center (self w1) /\
    (forall a, get_interval a (self w2) = get_interval a (self w1)) /\
    arduino (self w2) = mkSerial rest2 (tx port2) /\
    files w2 = files w1.
Proof.
  intros Hrx Hrx2 Hnone Hlen HF1 HF2 Hn1 Hn2 Hr.
  set (w0 := after_handshake port fs (Some path)) in *.
  assert (E0 : rx (arduino (self w0))
               = (first ++ List.concat centered ++ List.concat swept
                  ++ rest)%list).
  { unfold w0, after_handshake. cbn [self arduino rx]. rewrite Hrx.
    reflexivity. }
  pose proof (load_config_missing_world float w0 path eq_refl Hnone) as El.
  destruct (calibrate_total getRbyADC str_float 500 first centered swept rest
              (self w0) fs [] ltac:(lia) Hlen HF1 HF2 Hn1 Hn2 E0
              (mkWorld (self w0) (files w0)
                 (stdout w0
                  ++ ["Load config..." ++ String "010"%char EmptyString]%string)
                 (calls w0)))
    as (u & w1 & E1 & -> & Hs & Hf & Hcl).
  { repeat split. }
  set (J := calibration getRbyADC 500 first centered swept rest (self w0)) in *.
  assert (Ef : files w1 path
               = Some (profile_text str_float
                         [getRbyADC
                            (sum_of frame_x centered 0 / inject_Z 500)%Q;
                          getRbyADC
                            (sum_of frame_y centered 0 / inject_Z 500)%Q]
                         (IntervalOps.adc2r getRbyADC
                            (hull_of frame_x centered
                               (mkInterval (inject_Z (frame_x first))
                                  (inject_Z (frame_x first)))))
                         (IntervalOps.adc2r getRbyADC
                            (hull_of frame_y centered
                               (mkInterval (inject_Z (frame_y first))
                                  (inject_Z (frame_y first)))))
                         (IntervalOps.adc2r getRbyADC
                            (hull_of frame_x swept
                               (mkInterval (inject_Z (frame_x first))
                                  (inject_Z (frame_x first)))))
                         (IntervalOps.adc2r getRbyADC
                            (hull_of frame_y swept
                               (mkInterval (inject_Z (frame_y first))
                                  (inject_Z (frame_y first))))))).
  { rewrite Hf. unfold saved, J, calibration, w0, after_handshake.
    cbn [self config_file _center _center_x_interval _center_y_interval
         _x_interval _y_interval].
    rewrite String.eqb_refl. reflexivity. }
  destruct (Joy_init_profile getRbyADC float str_float port2 (files w1) path _
              rest2 _ _ _ _ _ Hrx2 Ef
              (profile_text_read_back float str_float _ _ _ _ _ _ Hr))
    as (w2 & E2 & Hs2 & Hf2 & _).
  exists w1, w2.
  split.
  { rewrite Joy_init_handshake. rewrite Hrx.
    cbn [firstn bytes_eqb _PROTOCOL_VERSION].
    change (Byte.eqb "b" "b") with true. cbn [andb negb].
    unfold try_except. fold w0. rewrite El. exact E1. }
  split; [exact Hs|]. split; [exact E2|].
  rewrite Hs, Hs2. unfold J, calibration.
  split; [reflexivity|]. split; [intros []; reflexivity|].
  split; [reflexivity | exact Hf2].
Qed.

Lemma calibration_survives_restart_witness :
  exists w1 w2,
    Joy_init whole integer_float plain_str (Some "joy.conf"%string)
      (fresh (mkSerial ("b"%byte
                        :: sample_reply
                        ++ List.concat (repeat sample_reply 500)
                        ++ List.concat (repeat pushed_reply 500) ++ [])%list [])
         no_files)
    = (Ok tt, w1) /\
    self w1
    = calibration whole 500 sample_reply (repeat sample_reply 500)
        (repeat pushed_reply 500) []
        (self (after_handshake
                 (mkSerial ("b"%byte
                            :: sample_reply
                            ++ List.concat (repeat sample_reply 500)
                            ++ List.concat (repeat pushed_reply 500)
                            ++ [])%list [])
                 no_files (Some "joy.conf"%string))) /\
    Joy_init whole integer_float plain_str (Some "joy.conf"%string)
      (fresh (mkSerial ["b"%byte] []) (files w1))
    = (Ok tt, w2) /\
    _center (self w2) = _center (self w1) /\
    (forall a, get_interval a (self w2) = get_interval a (self w1)) /\
    arduino (self w2) = mkSerial [] [] /\
    files w2 = files w1.
Proof.
  apply (calibration_survives_restart whole integer_float plain_str
           (mkSerial ("b"%byte
                      :: sample_reply
                      ++ List.concat (repeat sample_reply 500)
                      ++ List.concat (repeat pushed_reply 500) ++ [])%list [])
           (mkSerial ["b"%byte] []) no_files "joy.conf"
           sample_reply (repeat sample_reply 500) (repeat pushed_reply 500)
           [] []).
  - reflexivity.
  - reflexivity.
  - reflexivity.
  - reflexivity.
  - apply Forall_forall. intros frame H. apply repeat_spec in H. subst frame.
    reflexivity.
  - apply Forall_forall. intros frame H. apply repeat_spec in H. subst frame.
    reflexivity.
  - reflexivity.
  - reflexivity.
  - repeat (constructor;
            [unfold readable; repeat split; vm_compute; reflexivity|]).
    constructor.
Defined.

(** ** Counts without samples *)

(** X17: [calibrate(0)] fails: both loops are empty, so after the first
    reply the division of the summed center by the count raises
    ZeroDivisionError.  One request was sent, one reply consumed, the old
    center and intervals are already overwritten, and nothing is saved. *)
Theorem calibrate_zero_count (getRbyADC : Q -> Q) (str_float : Q -> string)
    (w : World) (first rest : list byte) :
  List.length first = 7%nat ->
  rx (arduino (self w)) = (first ++ rest)%list ->
  exists w',
    calibrate getRbyADC str_float 0 w = (Raise ZeroDivisionError, w') /\
    self w'
    = mkJoy (config_file (self w))
        (mkSerial rest (tx (arduino (self w)) ++ [x0f])%list)
        (Some [0; 0]%Q)
        (Some (mkInterval (inject_Z (frame_x first)) (inject_Z (frame_x first))))
        (Some (mkInterval (inject_Z (frame_y first)) (inject_Z (frame_y first))))
        (Some (mkInterval (inject_Z (frame_x first)) (inject_Z (frame_x first))))
        (Some (mkInterval (inject_Z (frame_y first)) (inject_Z (frame_y first)))) /\
    files w' = files w /\
    calls w' = calls w.
Proof.
  intros Hlen Hrx.
  destruct first as [|a [|b [|c [|d [|e [|f [|g [|? ?]]]]]]]];
    try discriminate Hlen.
  destruct w as [[cfg [rxw txw] c0 cx cy x y] fs out cl].
  simpl in Hrx. subst rxw.
  eexists. split; [reflexivity|]. repeat split.
Qed.

Lemma calibrate_zero_count_witness :
  exists w',
    calibrate same_value plain_str 0
      (sample_calibrated (mkSerial (pushed_reply ++ [])%list []))
    = (Raise ZeroDivisionError, w') /\
    self w'
    = mkJoy None (mkSerial [] ([] ++ [x0f])%list) (Some [0; 0]%Q)
        (Some (mkInterval (inject_Z (frame_x pushed_reply))
                 (inject_Z (frame_x pushed_reply))))
        (Some (mkInterval (inject_Z (frame_y pushed_reply))
                 (inject_Z (frame_y pushed_reply))))
        (Some (mkInterval (inject_Z (frame_x pushed_reply))
                 (inject_Z (frame_x pushed_reply))))
        (Some (mkInterval (inject_Z (frame_y pushed_reply))
                 (inject_Z (frame_y pushed_reply)))) /\
    files w' = no_files /\
    calls w' = [].
Proof.
  apply (calibrate_zero_count same_value plain_str
           (sample_calibrated (mkSerial (pushed_reply ++ [])%list []))
           pushed_reply []); reflexivity.
Defined.

(** X18: a negative count is accepted without complaint: both loops are
    empty, the division is by a non-zero number, and [calibrate] returns
    having sent a single request.  The profile it sets and saves is
    degenerate: the center is the conversion of [0 / count] and each of
    the four intervals is the converted single point of the first
    reply. *)
Theorem calibrate_negative_count (getRbyADC : Q -> Q) (str_float : Q -> string)
    (count : Z) (w : World) (first rest : list byte) :
  count < 0 ->
  List.length first = 7%nat ->
  rx (arduino (self w)) = (first ++ rest)%list ->
  exists w',
    calibrate getRbyADC str_float count w = (Ok tt, w') /\
    self w' = calibration getRbyADC count first [] [] rest (self w) /\
    files w'
    = saved str_float (calibration getRbyADC count first [] [] rest (self w))
        (files w) /\
    calls w' = calls w.
Proof.
  intros Hc Hlen Hrx.
  destruct (calibrate_total_any getRbyADC str_float count first [] [] rest
              (self w) (files w) (calls w)) with (w := w)
    as (u & w' & E & -> & Hs & Hf & Hcl).
  - right. exact Hc.
  - exact Hlen.
  - constructor.
  - constructor.
  - simpl. lia.
  - simpl. lia.
  - exact Hrx.
  - repeat split.
  - exists w'. repeat split; assumption.
Qed.

Lemma calibrate_negative_count_witness :
  exists w',
    calibrate same_value plain_str (-1)
      (sample_saving (mkSerial (pushed_reply ++ [])%list []))
    = (Ok tt, w') /\
    self w'
    = calibration same_value (-1) pushed_reply [] [] []
        (self (sample_saving (mkSerial (pushed_reply ++ [])%list []))) /\
    files w'
    = saved plain_str
        (calibration same_value (-1) pushed_reply [] [] []
           (self (sample_saving (mkSerial (pushed_reply ++ [])%list []))))
        (files (sample_saving (mkSerial (pushed_reply ++ [])%list []))) /\
    calls w' = calls (sample_saving (mkSerial (pushed_reply ++ [])%list [])).
Proof.
  apply (calibrate_negative_count same_value plain_str (-1)
           (sample_saving (mkSerial (pushed_reply ++ [])%list []))
           pushed_reply []); [lia | reflexivity | reflexivity].
Defined.

(** ** What the methods leave alone *)

Lemma keeps_bind {A B : Type} (I : World -> Prop) (m : M A) (k : A -> M B) :
  keeps I m -> (forall a, keeps I (k a)) -> keeps I (bind m k).
Proof.
  intros Hm Hk w Hw. unfold bind. specialize (Hm w Hw).
  destruct (m w) as [[a|e] w']; simpl in *; [apply Hk; exact Hm | exact Hm].
Qed.

Lemma keeps_for {A : Type} (I : World -> Prop) (l : list A)
    (body : A -> M unit) :
  (forall x, keeps I (body x)) -> keeps I (for_ l body).
Proof.
  intro Hb. induction l as [|x l IH]; simpl.
  - intros w Hw. exact Hw.
  - apply keeps_bind; [apply Hb | intros _; exact IH].
Qed.

Lemma keeps_try {A : Type} (I : World -> Prop) (m : M A)
    (handler : exn -> option (M A)) :
  keeps I m -> (forall e h, handler e = Some h -> keeps I h) ->
  keeps I (try_except m handler).
Proof.
  intros Hm Hh w Hw. unfold try_except. specialize (Hm w Hw).
  destruct (m w) as [[a|e] w']; simpl in *; [exact Hm|].
  destruct (handler e) as [h|] eqn:E; [exact (Hh e h E w' Hm) | exact Hm].
Qed.

Lemma keeps_ret {A : Type} (I : World -> Prop) (a : A) : keeps I (ret a).
Proof. intros w Hw. exact Hw. Qed.

Lemma keeps_raise {A : Type} (I : World -> Prop) (e : exn) :
  keeps I (@raise A e).
Proof. intros w Hw. exact Hw. Qed.

Lemma keeps_lift {A : Type} (I : World -> Prop) (r : result A) :
  keeps I (lift r).
Proof. intros w Hw. exact Hw. Qed.

Lemma keeps_gets {A : Type} (I : World -> Prop) (f : World -> A) :
  keeps I (gets f).
Proof. intros w Hw. exact Hw. Qed.

Lemma quiet_refl (w : World) : quiet (config_file (self w)) w w.
Proof.
  repeat split.
  - exists 0%nat. simpl. now rewrite app_nil_r.
  - exists 0%nat. reflexivity.
Qed.

Lemma quiet_attrs (cfg : option string) (w0 w w' : World) :
  quiet cfg w0 w ->
  config_file (self w') = config_file (self w) ->
  arduino (self w') = arduino (self w) ->
  files w' = files w ->
  calls w' = calls w ->
  quiet cfg w0 w'.
Proof.
  intros (H1 & H2 & H3 & H4 & H5) E1 E2 E3 E4. unfold quiet.
  rewrite E1, E2, E3, E4. repeat split; assumption.
Qed.

Lemma keeps_config {A : Type} (cfg : option string) (w0 : World)
    (k : option string -> M A) :
  keeps (quiet cfg w0) (k cfg) ->
  keeps (quiet cfg w0) (bind (gets (fun w => config_file (self w))) k).
Proof.
  intros Hk w Hw. unfold bind, gets.
  assert (E : config_file (self w) = cfg) by exact (proj1 Hw).
  rewrite E. exact (Hk w Hw).
Qed.

Lemma keeps_print_end (cfg : option string) (w0 : World) (s e : string) :
  keeps (quiet cfg w0) (print_end s e).
Proof. intros w Hw. eapply quiet_attrs; [exact Hw | reflexivity ..]. Qed.

Lemma keeps_print (cfg : option string) (w0 : World) (s : string) :
  keeps (quiet cfg w0) (print s).
Proof. apply keeps_print_end. Qed.

Lemma keeps_assign (cfg : option string) (w0 : World) (a : attr)
    (i : Interval) :
  keeps (quiet cfg w0) (assign a i).
Proof.
  intros w Hw. eapply quiet_attrs; [exact Hw | ..];
    try reflexivity; destruct a; reflexivity.
Qed.

Lemma keeps_set_center (cfg : option string) (w0 : World)
    (c : option (list Q)) :
  keeps (quiet cfg w0) (modify (with_self (set_center c))).
Proof. intros w Hw. eapply quiet_attrs; [exact Hw | reflexivity ..]. Qed.

Lemma keeps_the_interval (cfg : option string) (w0 : World) (a : attr) :
  keeps (quiet cfg w0) (the_interval a).
Proof.
  intros w Hw. unfold the_interval.
  destruct (get_interval a (self w)); exact Hw.
Qed.

Lemma keeps_center_at (cfg : option string) (w0 : World) (k : nat) :
  keeps (quiet cfg w0) (center_at k).
Proof.
  intros w Hw. unfold center_at.
  destruct (_center (self w)) as [c|]; [|exact Hw].
  destruct (nth_error c k); exact Hw.
Qed.

Lemma keeps_center_update (cfg : option string) (w0 : World) (k : nat)
    (f : Q -> result Q) :
  keeps (quiet cfg w0) (center_update k f).
Proof.
  intros w Hw. unfold center_update.
  destruct (_center (self w)) as [c|]; [|exact Hw].
  destruct (nth_error c k) as [x|]; [|exact Hw].
  destruct (f x); [|exact Hw].
  eapply quiet_attrs; [exact Hw | reflexivity ..].
Qed.

Lemma keeps_open_rt (cfg : option string) (w0 : World) (path : string) :
  keeps (quiet cfg w0) (open_rt path).
Proof.
  intros w Hw. unfold open_rt. destruct (files w path); exact Hw.
Qed.

Lemma keeps_write_file (w0 : World) (path content : string) :
  keeps (quiet (Some path) w0) (write_file path content).
Proof.
  intros w (H1 & H2 & H3 & H4 & H5). unfold write_file, modify, quiet.
  cbn [snd self files calls].
  repeat split; try assumption.
  intros p Hp.
  assert (E : String.eqb p path = false).
  { apply String.eqb_neq. intros ->. now apply Hp. }
  rewrite E. apply H3, Hp.
Qed.

Lemma keeps_arduino_write (cfg : option string) (w0 : World) :
  keeps (quiet cfg w0) (arduino_write Struct.pack_B_15).
Proof.
  intros w (H1 & H2 & H3 & [n H4] & H5).
  unfold arduino_write, modify, quiet, with_self, SerialOps.write,
    Struct.pack_B_15.
  cbn [snd self files calls set_arduino arduino config_file rx tx].
  repeat split; try assumption.
  exists (S n). rewrite H4, <- app_assoc. f_equal.
  now rewrite <- repeat_cons.
Qed.

Lemma keeps_arduino_read (cfg : option string) (w0 : World) (size : nat) :
  keeps (quiet cfg w0) (arduino_read size).
Proof.
  intros w (H1 & H2 & H3 & H4 & [n H5]).
  unfold arduino_read, quiet, with_self, SerialOps.read.
  cbn [snd self files calls set_arduino arduino config_file rx tx].
  repeat split; try assumption.
  exists (size + n)%nat. rewrite H5. apply skipn_skipn.
Qed.

Create HintDb keeps.

#[local] Hint Resolve keeps_ret keeps_raise keeps_lift keeps_gets
  keeps_print_end keeps_print keeps_assign keeps_set_center keeps_the_interval
  keeps_center_at keeps_center_update keeps_open_rt keeps_write_file
  keeps_arduino_write keeps_arduino_read : keeps.

Ltac keep :=
  repeat first
    [ solve [auto with keeps]
    | apply keeps_bind; [|intro]
    | apply keeps_for; intro
    | match goal with
      | |- keeps _ (let (_, _) := ?x in _) => destruct x
      | |- keeps _ (if ?b then _ else _) => destruct b
      | |- keeps _ (match ?x with Some _ => _ | None => _ end) => destruct x
      end ].

Lemma keeps_get_raw_data (cfg : option string) (w0 : World) :
  keeps (quiet cfg w0) _get_raw_data.
Proof. unfold _get_raw_data. keep. Qed.

Lemma keeps_progress (cfg : option string) (w0 : World) (i count : Z) :
  keeps (quiet cfg w0) (progress i count).
Proof. unfold progress. keep. Qed.

Lemma keeps_extend_attr (cfg : option string) (w0 : World) (a : attr)
    (value : Z) :
  keeps (quiet cfg w0) (extend_attr a value).
Proof. unfold extend_attr. keep. Qed.

Lemma keeps_adc2r_attr (getRbyADC : Q -> Q) (cfg : option string)
    (w0 : World) (a : attr) :
  keeps (quiet cfg w0) (adc2r_attr getRbyADC a).
Proof. unfold adc2r_attr. keep. Qed.

#[local] Hint Resolve keeps_get_raw_data keeps_progress keeps_extend_attr
  keeps_adc2r_attr : keeps.

Lemma keeps_save_config (str_float : Q -> string) (cfg : option string)
    (w0 : World) :
  keeps (quiet cfg w0) (save_config str_float).
Proof.
  unfold save_config. apply keeps_config. destruct cfg as [path|]; keep.
Qed.

Lemma keeps_load_config (float : string -> option Q) (cfg : option string)
    (w0 : World) :
  keeps (quiet cfg w0) (load_config float).
Proof.
  unfold load_config. apply keeps_bind; [keep | intro].
  apply keeps_config. destruct cfg as [path|]; keep.
Qed.

#[local] Hint Resolve keeps_save_config keeps_load_config : keeps.

Lemma keeps_calibrate (getRbyADC : Q -> Q) (str_float : Q -> string)
    (count : Z) (cfg : option string) (w0 : World) :
  keeps (quiet cfg w0) (calibrate getRbyADC str_float count).
Proof.
  unfold calibrate.
  repeat first
    [ solve [auto with keeps]
    | apply keeps_bind; [|intro]
    | apply keeps_for; intro
    | match goal with
      | x : (Z * Z * Z * Z * Z)%type |- _ => destruct x as [[[[? ?] ?] ?] ?]
      end ].
Qed.

Lemma keeps_get_data (getRbyADC : Q -> Q) (cfg : option string) (w0 : World) :
  keeps (quiet cfg w0) (get_data getRbyADC).
Proof.
  unfold get_data.
  apply keeps_bind; [keep | intros [[[[? ?] ?] ?] ?]]. keep.
Qed.

(** X19: no method of [Joy] acts outside its own business, whether it
    returns or raises.  [load_config], [save_config], [calibrate],
    [_get_raw_data], [get_data] and the constructor run no command, leave
    every file other than the calibration file as it is, write nothing
    but request bytes 15 to the port and read the port from the front
    only; the calibration-file path is the one given at construction. *)
Theorem joy_methods_are_quiet (getRbyADC : Q -> Q)
    (float : string -> option Q) (str_float : Q -> string)
    (cfg : option string) (count : Z) (w : World) :
  quiet (config_file (self w)) w (snd (load_config float w)) /\
  quiet (config_file (self w)) w (snd (save_config str_float w)) /\
  quiet (config_file (self w)) w (snd (calibrate getRbyADC str_float count w)) /\
  quiet (config_file (self w)) w (snd (_get_raw_data w)) /\
  quiet (config_file (self w)) w (snd (get_data getRbyADC w)) /\
  quiet cfg w (snd (Joy_init getRbyADC float str_float cfg w)).
Proof.
  pose proof (quiet_refl w) as H0.
  split; [exact (keeps_load_config float _ w w H0)|].
  split; [exact (keeps_save_config str_float _ w w H0)|].
  split; [exact (keeps_calibrate getRbyADC str_float count _ w w H0)|].
  split; [exact (keeps_get_raw_data _ w w H0)|].
  split; [exact (keeps_get_data getRbyADC _ w w H0)|].
  unfold Joy_init. unfold bind at 1. unfold modify at 1.
  assert (H1 : quiet cfg w (with_self (set_config_file cfg) w)).
  { destruct H0 as (_ & H2 & H3 & H4 & H5). repeat split; try assumption. }
  revert H1. generalize (with_self (set_config_file cfg) w). intros w1 H1.
  apply (fun K => K w1 H1). clear w1 H1.
  change (keeps (quiet cfg w)
            (print "Wait..." ;;
             readByte <- arduino_read 1 ;;
             if negb (bytes_eqb readByte _PROTOCOL_VERSION) then
               raise (RuntimeError "Joy Protocol error")
             else
               try_except (load_config float)
                 (fun e => match e with
                           | FileNotFoundError =>
                               Some (calibrate getRbyADC str_float 500)
                           | ValueError =>
                               Some (calibrate getRbyADC str_float 500)
                           | _ => None
                           end))%py).
  apply keeps_bind; [keep | intro].
  apply keeps_bind; [keep | intro readByte].
  destruct (negb (bytes_eqb readByte _PROTOCOL_VERSION)); [keep|].
  apply keeps_try; [keep|].
  intros e h He.
  destruct e; try discriminate He; injection He as <-;
    apply keeps_calibrate.
Qed.

(** ** A step that fails *)






(** ** A profile that breaks off *)

(** X21: [load_config] is not all-or-nothing.  When the first line of the
    file is read as numbers and the second is not, the error of the second
    line is raised, yet the center has already been replaced by the
    numbers of the first line, while the four intervals are as they
    were. *)
Theorem load_config_not_atomic (float : string -> option Q) (w : World)
    (path content : string) (c : list Q) (e : exn) :
  config_file (self w) = Some path ->
  files w path = Some content ->
  floats float (nth_line 0 content) = Ok c ->
  floats float (nth_line 1 content) = Raise e ->
  exists w',
    load_config float w = (Raise e, w') /\
    _center (self w') = Some c /\
    (forall a, get_interval a (self w') = get_interval a (self w)) /\
    files w' = files w.
Proof.
  intros Hc Hf P1 P2.
  destruct (five_lines content)
    as (l1 & f1 & l2 & f2 & l3 & f3 & l4 & f4 & l5 & f5
        & E1 & E2 & _ & _ & _ & L1 & L2 & _).
  rewrite L1 in P1. rewrite L2 in P2.
  destruct w as [[cfg port c0 cx0 cy0 x0 y0] fs out cl].
  simpl in Hc, Hf. subst cfg.
  unfold load_config, bind, print, print_end, modify, gets, open_rt, lift,
    assign, with_self.
  cbn [self files stdout calls config_file arduino _center _center_x_interval
       _center_y_interval _x_interval _y_interval set_center set_interval].
  rewrite Hf, E1, P1, E2, P2.
  eexists. split; [reflexivity|].
  split; [reflexivity|]. split; [intros []; reflexivity | reflexivity].
Qed.

Lemma load_config_not_atomic_witness :
  exists w',
    load_config integer_float
      (mkWorld (self (sample_saving (mkSerial [] [])))
         (one_file "joy.conf" corrupt_profile) [] [])
    = (Raise ValueError, w') /\
    _center (self w') = Some [inject_Z 512; inject_Z 496] /\
    (forall a,
       get_interval a (self w')
       = get_interval a
           (self (mkWorld (self (sample_saving (mkSerial [] [])))
                    (one_file "joy.conf" corrupt_profile) [] []))) /\
    files w'
    = files (mkWorld (self (sample_saving (mkSerial [] [])))
               (one_file "joy.conf" corrupt_profile) [] []).
Proof.
  apply (load_config_not_atomic integer_float
           (mkWorld (self (sample_saving (mkSerial [] [])))
              (one_file "joy.conf" corrupt_profile) [] [])
           "joy.conf" corrupt_profile); reflexivity.
Defined.

(** ** The first step after construction *)

(** X22: a [JoyMouse] starts with the stored mask 0, so the first call of
    [_keys] after a successful construction can only press: it emits the
    press action of every mapped button whose bit is set in the sample, in
    table order, and no release. *)
Theorem first_keys_only_press (getRbyADC : Q -> Q)
    (float : string -> option Q) (str_float : Q -> string)
    (config : option string) (mode0 : Z) (size : option (Z * Z))
    (w w' : World) (jm : JoyMouse) :
  JoyMouse_init getRbyADC float str_float config mode0 size w = (Ok jm, w') ->
  mode jm = mode0 /\
  forall btnMask,
    fst (_keys jm btnMask)
    = flat_map
        (fun entry =>
           if Z.testbit btnMask (fst entry)
           then [(fst (snd entry) ++ "down")%string; snd (snd entry)]
           else [])
        _BTN_ASSOC.
Proof.
  intro H. unfold JoyMouse_init, bind, ret in H.
  destruct (Joy_init getRbyADC float str_float config w) as [[u|e] w1];
    [|discriminate H].
  injection H as <- <-. split; [reflexivity|].
  intro btnMask. rewrite keys_actions. cbn [_old_btn_mask].
  apply flat_map_ext. intros [k [tp val]].
  unfold edge_action. cbn [fst snd]. rewrite Z.testbit_0_l.
  destruct (Z.testbit btnMask k); reflexivity.
Qed.

Lemma first_keys_only_press_witness :
  mode (mkJoyMouse (1920, 1080) RELATIVE_MODE 0) = RELATIVE_MODE /\
  forall btnMask,
    fst (_keys (mkJoyMouse (1920, 1080) RELATIVE_MODE 0) btnMask)
    = flat_map
        (fun entry =>
           if Z.testbit btnMask (fst entry)
           then [(fst (snd entry) ++ "down")%string; snd (snd entry)]
           else [])
        _BTN_ASSOC.
Proof.
  apply (first_keys_only_press same_value integer_float plain_str None
           RELATIVE_MODE None
           (fresh (mkSerial ["b"%byte] []) no_files)
           (mkWorld (mkJoy None (mkSerial [] []) None None None None None)
              no_files
              ["Wait..." ++ String "010"%char EmptyString;
               "Load config..." ++ String "010"%char EmptyString]%string
              [])
           (mkJoyMouse (1920, 1080) RELATIVE_MODE 0)).
  reflexivity.
Defined.
